(** * project2_ocr/main.py: the OCR + LLM task pipeline

    A shallow embedding of [OCRLLMWorker.run] (the pipeline worker) and of
    the [MainWindow] methods that own the single worker slot (the task
    orchestrator), followed by the properties of the task lifecycle, the
    event protocol and the review checkpoint.

    Python [str] values are sequences of Unicode code points; signals
    emitted by the worker are collected, in order, in a list; the slots of
    the main window are functions on a record of its attributes. *)

From Stdlib Require Import String Ascii NArith ZArith QArith List Bool Lia.
From stdpp Require Import base tactics option list numbers.
Import ListNotations.

Set Default Goal Selector "!".

(** ** Python strings *)

Module PyStr.

(** A [str] is the list of its code points. *)
Definition str : Type := list N.

(** Decoding of a UTF-8 byte sequence, used to write the literals of the
    source as they stand in the file. *)
Fixpoint utf8_decode (bs : list N) : str :=
  match bs with
  | [] => []
  | b0 :: r0 =>
    if (b0 <? 0x80)%N then b0 :: utf8_decode r0
    else if (b0 <? 0xE0)%N then
      match r0 with
      | b1 :: r1 =>
        N.lor (N.shiftl (N.land b0 0x1F) 6) (N.land b1 0x3F) :: utf8_decode r1
      | _ => []
      end
    else if (b0 <? 0xF0)%N then
      match r0 with
      | b1 :: b2 :: r2 =>
        N.lor (N.shiftl (N.land b0 0x0F) 12)
              (N.lor (N.shiftl (N.land b1 0x3F) 6) (N.land b2 0x3F))
          :: utf8_decode r2
      | _ => []
      end
    else
      match r0 with
      | b1 :: b2 :: b3 :: r3 =>
        N.lor (N.shiftl (N.land b0 0x07) 18)
              (N.lor (N.shiftl (N.land b1 0x3F) 12)
                     (N.lor (N.shiftl (N.land b2 0x3F) 6) (N.land b3 0x3F)))
          :: utf8_decode r3
      | _ => []
      end
  end.

(** A literal of the source. *)
Definition lit (s : string) : str :=
  utf8_decode (map N_of_ascii (list_ascii_of_string s)).

Definition str_eqb (a b : str) : bool := bool_decide (a = b).

(** Truth value of a [str]: the empty string is falsy. *)
Definition truthy (s : str) : bool :=
  match s with [] => false | _ :: _ => true end.

(** Truth value of an optional [str] ([None] or a string). *)
Definition truthy_opt (o : option str) : bool :=
  match o with None => false | Some s => truthy s end.

(** [str.isspace] on one character: the code points CPython's
    [_PyUnicode_IsWhitespace] accepts. *)
Definition isspace (c : N) : bool :=
  (((0x09 <=? c) && (c <=? 0x0D)) || ((0x1C <=? c) && (c <=? 0x20))
   || (c =? 0x85) || (c =? 0xA0) || (c =? 0x1680)
   || ((0x2000 <=? c) && (c <=? 0x200A))
   || (c =? 0x2028) || (c =? 0x2029) || (c =? 0x202F) || (c =? 0x205F)
   || (c =? 0x3000))%N.

Fixpoint lstrip (s : str) : str :=
  match s with
  | [] => []
  | c :: r => if isspace c then lstrip r else s
  end.

Definition rstrip (s : str) : str := rev (lstrip (rev s)).

(** [s.strip()] *)
Definition strip (s : str) : str := rstrip (lstrip s).

(** [sep.join(items)] *)
Fixpoint join (sep : str) (items : list str) : str :=
  match items with
  | [] => []
  | [x] => x
  | x :: rest => x ++ sep ++ join sep rest
  end.

(** [len(s)] *)
Definition len (s : str) : Z := Z.of_nat (length s).

End PyStr.
Import PyStr.

(** ** Signals and exceptions *)

(** The four signals of [WorkerSignals], as values in emission order. *)
Inductive Signal : Type :=
| finished
| error (msg : str)
| result (task_type : str) (data : str)
| progress (task_type : str) (percentage : Z).

#[global] Instance Signal_eq_dec : EqDecision Signal.
Proof. solve_decision. Defined.

(** An exception, an instance of [Exception]: [type(e).__name__] and
    [str(e)]. *)
Record Exn : Type := mkExn { exn_name : str; exn_str : str }.

Definition ImportError (msg : str) : Exn := mkExn (lit "ImportError") msg.
Definition ValueError (msg : str) : Exn := mkExn (lit "ValueError") msg.
Definition RuntimeError (msg : str) : Exn := mkExn (lit "RuntimeError") msg.

(** How a block of statements ends. *)
Inductive Outcome (A : Type) : Type :=
| Normal (a : A)
| Returned
| Raised (e : Exn).
Arguments Normal {A} a.
Arguments Returned {A}.
Arguments Raised {A} e.

(** A computation of the worker: the signals emitted so far, in order, and
    the way the block ended. *)
Definition Emit (A : Type) : Type := list Signal * Outcome A.

Definition ret {A} (a : A) : Emit A := ([], Normal a).

Definition bind {A B} (m : Emit A) (k : A -> Emit B) : Emit B :=
  match m with
  | (out, Normal a) => let '(out', o) := k a in (out ++ out', o)
  | (out, Returned) => (out, Returned)
  | (out, Raised e) => (out, Raised e)
  end.

Notation "x <- m ;; k" := (bind m (fun x => k))
  (at level 100, m at next level, right associativity).
Notation "m ;; k" := (bind m (fun _ => k))
  (at level 100, right associativity).

Definition emit (s : Signal) : Emit unit := ([s], Normal tt).
Definition raise {A} (e : Exn) : Emit A := ([], Raised e).
Definition return_ {A} : Emit A := ([], Returned).

(** [if c: m] *)
Definition when (c : bool) (m : Emit unit) : Emit unit :=
  if c then m else ret tt.

(** A call that returns a value or raises. *)
Definition call {A} (r : Exn + A) : Emit A :=
  match r with inl e => raise e | inr a => ret a end.

(** [try: m  except Exception as e: h e] *)
Definition try_except (m : Emit unit) (h : Exn -> Emit unit) : Emit unit :=
  match m with
  | (out, Raised e) => let '(out', o) := h e in (out ++ out', o)
  | _ => m
  end.

(** [try: m  finally: f]: [f] runs however [m] ended, and the way [m]
    ended is kept unless [f] itself returns or raises. *)
Definition try_finally (m : Emit unit) (f : Emit unit) : Emit unit :=
  let '(out, o) := m in
  match f with
  | (out', Normal _) => (out ++ out', o)
  | (out', o') => (out ++ out', o')
  end.

(** ** The world of the worker *)

(** Handles of the loaded engines: an [easyocr.Reader] and a [GPT4All]
    model. *)
Definition reader : Type := nat.
Definition model : Type := nat.

(** The optional imports at the top of the module: [true] when the import
    succeeded, [false] when the name was bound to [None]. *)
Record Globals : Type := mkGlobals {
  easyocr : bool;
  GPT4All : bool;
  cv2 : bool
}.

(** What the calls of one run of the worker into the file system and into
    the engines answer.  An engine call returns its value ([inr]) or raises
    ([inl]); [generate] stands for the call inside its [chat_session]. *)
Record World : Type := mkWorld {
  os_path_exists : str -> bool;
  (** [cv2.imread(path) is not None] *)
  cv2_imread : str -> bool;
  (** [easyocr.Reader(['ko', 'en'], gpu=False)] *)
  easyocr_Reader : Exn + reader;
  (** [reader.readtext(path, detail=0, paragraph=True)] *)
  readtext : reader -> str -> Exn + list str;
  (** [GPT4All(model_name, device='cpu', allow_download=True)] *)
  GPT4All_load : str -> Exn + model;
  (** [model.generate(prompt, max_tokens, temp, top_k, top_p,
      streaming=False)] *)
  generate : model -> str -> Z -> Q -> Z -> Q -> Exn + str;
  traceback_format_exc : Exn -> str
}.

(** ** OCRLLMWorker *)

Record OCRLLMWorker : Type := mkWorker {
  task_type : str;
  image_path : option str;
  text_input : option str;
  model_name : str;
  (** reference to the [threading.Event] shared with the main window *)
  stop_event : nat;
  ocr_reader : option reader;
  llm_model : option model
}.

Definition nl : str := [10%N].

Definition prompt_template_correction (TEXT_TO_CORRECT : str) : str :=
  lit "다음은 이미지에서 광학 문자 인식(OCR)을 통해 추출된 텍스트입니다. 이 텍스트에는 오류가 포함되어 있을 수 있습니다. 원본의 의미를 유지하면서 문법, 철자, 구두점 오류를 수정하고, 필요한 경우 가독성을 높이기 위해 문장을 자연스럽게 다듬어주십시오. 추가적인 설명이나 주석 없이 교정된 텍스트만 제공해주세요. 한국어로 답변해주세요.

OCR 텍스트:
---
" ++ TEXT_TO_CORRECT ++ lit "
---

교정된 텍스트:".

Definition prompt_template_explanation (DOCUMENT_TEXT : str) : str :=
  lit "다음은 문서의 내용입니다. 이 문서가 어떤 종류의 문서인지 (예: 이메일, 보고서, 기사, 메모 등), 주요 내용은 무엇인지, 그리고 이 문서의 전반적인 목적은 무엇으로 보이는지 간략하게 설명해주세요. 한국어로 답변해주세요.

문서 내용:
---
" ++ DOCUMENT_TEXT ++ lit "
---

설명:".

(** The message built in the [except] clause of [run]. *)
Definition error_msg (W : World) (self : OCRLLMWorker) (e : Exn) : str :=
  lit "작업 유형 '" ++ task_type self ++ lit "' 처리 중 오류 발생:" ++ nl
  ++ exn_name e ++ lit ": " ++ exn_str e ++ nl ++ traceback_format_exc W e.

(** [if self.stop_event.is_set(): self.signals.finished.emit(); return] *)
Definition check_stop (is_set : bool) : Emit unit :=
  when is_set (emit finished ;; return_).

(** The [try] block of [run].  [is_set n] is the answer of the [n]-th call
    of [self.stop_event.is_set()] of this run. *)
Definition run_try (G : Globals) (W : World) (is_set : nat -> bool)
    (self : OCRLLMWorker) : Emit unit :=
  if str_eqb (task_type self) (lit "ocr_correct") then
    when (negb (easyocr G))
      (raise (ImportError (lit "EasyOCR이 설치되지 않았습니다. 'pip install easyocr'로 설치 후 다시 시도해주세요."))) ;;
    when (negb (GPT4All G))
      (raise (ImportError (lit "GPT4All이 설치되지 않았습니다. 'pip install gpt4all'로 설치 후 다시 시도해주세요."))) ;;
    when (negb (cv2 G))
      (raise (ImportError (lit "OpenCV (cv2)가 설치되지 않았습니다. 'pip install opencv-python'으로 설치 후 다시 시도해주세요."))) ;;
    emit (progress (task_type self) 5) ;;
    path <- match image_path self with
            | Some p =>
              if truthy p && os_path_exists W p then ret p
              else raise (ValueError (lit "OCR을 위한 이미지 경로가 유효하지 않습니다."))
            | None => raise (ValueError (lit "OCR을 위한 이미지 경로가 유효하지 않습니다."))
            end ;;
    when (negb (cv2_imread W path))
      (raise (ValueError (lit "OpenCV가 이미지를 로드할 수 없습니다: " ++ path
                          ++ lit ". 파일 경로 또는 파일 손상 여부를 확인하세요."))) ;;
    (* 1. OCR *)
    emit (progress (task_type self) 10) ;;
    the_reader <- match ocr_reader self with
                  | Some r => ret r
                  | None => call (easyocr_Reader W)
                  end ;;
    check_stop (is_set 0%nat) ;;
    raw_ocr_results <- call (readtext W the_reader path) ;;
    let ocr_text_internal := join nl raw_ocr_results in
    emit (result (lit "ocr_result") ocr_text_internal) ;;
    emit (progress (task_type self) 50) ;;
    check_stop (is_set 1%nat) ;;
    (* 2. LLM correction *)
    emit (progress (task_type self) 55) ;;
    the_model <- match llm_model self with
                 | Some m => ret (Some m)
                 | None => m <- call (GPT4All_load W (model_name self)) ;; ret (Some m)
                 end ;;
    let prompt := prompt_template_correction ocr_text_internal in
    check_stop (is_set 2%nat) ;;
    m <- match the_model with
         | Some m => ret m
         | None => raise (RuntimeError (lit "LLM 모델이 초기화되지 않았습니다 (교정 단계)."))
         end ;;
    corrected_text <- call (generate W m prompt (len ocr_text_internal * 2 + 300)
                                     0.6%Q 40 0.9%Q) ;;
    emit (result (lit "corrected_text_result") (strip corrected_text)) ;;
    emit (progress (task_type self) 100)
  else if str_eqb (task_type self) (lit "explain") then
    when (negb (GPT4All G))
      (raise (ImportError (lit "GPT4All이 설치되지 않았습니다. 'pip install gpt4all'로 설치 후 다시 시도해주세요."))) ;;
    emit (progress (task_type self) 10) ;;
    text <- match text_input self with
            | Some t =>
              if truthy t then ret t
              else raise (ValueError (lit "해설을 위한 텍스트 입력이 없습니다."))
            | None => raise (ValueError (lit "해설을 위한 텍스트 입력이 없습니다."))
            end ;;
    the_model <- match llm_model self with
                 | Some m => ret (Some m)
                 | None => m <- call (GPT4All_load W (model_name self)) ;; ret (Some m)
                 end ;;
    check_stop (is_set 0%nat) ;;
    let prompt := prompt_template_explanation text in
    m <- match the_model with
         | Some m => ret m
         | None => raise (RuntimeError (lit "LLM 모델이 초기화되지 않았습니다 (해설 단계)."))
         end ;;
    explanation <- call (generate W m prompt (len text + 500) 0.7%Q 50 0.95%Q) ;;
    emit (result (lit "explanation_result") (strip explanation)) ;;
    emit (progress (task_type self) 100)
  else ret tt.

(** [OCRLLMWorker.run]: the [try] block, the [except Exception] clause that
    reports the error, and the [finally] clause that emits [finished]. *)
Definition run_stmt (G : Globals) (W : World) (is_set : nat -> bool)
    (self : OCRLLMWorker) : Emit unit :=
  try_finally
    (try_except (run_try G W is_set self)
                (fun e => emit (error (error_msg W self e))))
    (emit finished).

(** The signals one run of the worker emits, in order. *)
Definition run (G : Globals) (W : World) (is_set : nat -> bool)
    (self : OCRLLMWorker) : list Signal :=
  fst (run_stmt G W is_set self).

(** ** A concrete world: the scenario of the specification *)

(** Both engines loaded; [doc.png] exists and is readable; recognition
    returns the single fragment [Hello wrold]; generation returns
    [Hello world.] surrounded by blanks. *)
Definition all_libs : Globals := mkGlobals true true true.

Definition demo_world : World := {|
  os_path_exists := fun p => str_eqb p (lit "doc.png");
  cv2_imread := fun p => str_eqb p (lit "doc.png");
  easyocr_Reader := inr 0%nat;
  readtext := fun _ _ => inr [lit "Hello wrold"];
  GPT4All_load := fun _ => inr 0%nat;
  generate := fun _ _ _ _ _ _ => inr (lit " Hello world.
");
  traceback_format_exc := fun _ => lit "Traceback"
|}.

Definition demo_worker : OCRLLMWorker := {|
  task_type := lit "ocr_correct";
  image_path := Some (lit "doc.png");
  text_input := None;
  model_name := lit "Meta-Llama-3-8B-Instruct.Q4_0.gguf";
  stop_event := 0%nat;
  ocr_reader := Some 0%nat;
  llm_model := Some 0%nat
|}.

Definition never_set : nat -> bool := fun _ => false.
Definition always_set : nat -> bool := fun _ => true.


(** ** Dialogs *)

(** [ComparisonDialog]: the review checkpoint.  [refined_text_edit] is the
    content of the editable text widget. *)
Record ComparisonDialog : Type := mkComparisonDialog {
  dialog_image_path : option str;
  ocr_text_content : str;
  refined_text_content : str;
  final_refined_text : str;
  refined_text_edit : str
}.

(** [ComparisonDialog.__init__].  The text widget is taken to hold the text
    it was given by [setPlainText]; the rewriting of line and paragraph
    separators and of no-break spaces that [QTextEdit] does on the way in
    and out is not part of the embedding.  What is accepted is whatever
    [toPlainText] returns, the [editedText] of the decision below. *)
Definition ComparisonDialog_init (image_path : option str)
    (ocr_text refined_text : str) : ComparisonDialog :=
  let ocr_text_content :=
    if truthy ocr_text then ocr_text else lit "OCR 결과가 없습니다." in
  let refined_text_content :=
    if truthy refined_text then refined_text else lit "LLM 정제 결과가 없습니다." in
  let final_refined_text := refined_text_content in
  mkComparisonDialog image_path ocr_text_content refined_text_content
    final_refined_text final_refined_text.

(** What the human does with the dialog: the Redo button, the Accept button
    with the text widget holding [editedText], or Cancel / closing it. *)
Inductive ReviewDecision : Type :=
| Redo
| Accept (editedText : str)
| Cancel.

(** [on_redo]: [self.done(1)] *)
Definition on_redo (d : ComparisonDialog) : ComparisonDialog * Z := (d, 1%Z).

(** [on_accept]: reads the widget, then [self.done(2)] *)
Definition on_accept (d : ComparisonDialog) : ComparisonDialog * Z :=
  (mkComparisonDialog (dialog_image_path d) (ocr_text_content d)
     (refined_text_content d) (refined_text_edit d) (refined_text_edit d), 2%Z).

(** [QDialog.reject] *)
Definition reject (d : ComparisonDialog) : ComparisonDialog * Z := (d, 0%Z).

Definition get_accepted_text (d : ComparisonDialog) : str := final_refined_text d.

(** [dialog.exec()]: the dialog and its result code once the human has
    decided. *)
Definition exec (d : ComparisonDialog) (h : ReviewDecision) : ComparisonDialog * Z :=
  match h with
  | Redo => on_redo d
  | Accept editedText =>
    on_accept (mkComparisonDialog (dialog_image_path d) (ocr_text_content d)
                 (refined_text_content d) (final_refined_text d) editedText)
  | Cancel => reject d
  end.

Inductive Icon : Type := Critical | Warning.

(** The method that shows a message box: what runs after the box is closed
    depends on it. *)
Inductive Caller : Type :=
| in_run_task
| in_handle_worker_error
| in_show_comparison_dialog.

(** A modal dialog the window is blocked in. *)
Inductive Dialog : Type :=
| comparison_dialog (d : ComparisonDialog)
| explanation_dialog (explanation_text : str)
| message_box (icon : Icon) (title text : str) (caller : Caller).

(** ** MainWindow *)

Record MainWindow : Type := mkMainWindow {
  current_image_path : option str;
  raw_ocr_text : str;
  (** the text handed to the comparison dialog *)
  current_corrected_text : str;
  (** the text accepted in the comparison dialog *)
  final_accepted_text_for_explanation : str;
  llm_model_name : str;
  (** the engines loaded when the window is created *)
  ocr_reader_instance : option reader;
  llm_model_instance : option model;
  (** every worker handed to [threadpool.start], oldest first *)
  threadpool : list OCRLLMWorker;
  (** the worker slot: a reference into [threadpool] *)
  current_worker_runnable : option nat;
  (** a reference into [stop_events] *)
  stop_current_worker_event : option nat;
  (** every [threading.Event] created so far and whether it is set *)
  stop_events : list bool;
  progress_bar : Z;
  status_label : str;
  (** [isEnabled()] of the three buttons *)
  analyze_button : bool;
  cancel_task_button : bool;
  select_image_button : bool;
  (** the modal dialogs inside whose [exec()] the window is, innermost first *)
  open_dialogs : list Dialog
}.

(** Assignments to the attributes of [self]. *)
Definition set_current_image_path (v : option str) (self : MainWindow) : MainWindow :=
  mkMainWindow v (raw_ocr_text self) (current_corrected_text self)
    (final_accepted_text_for_explanation self) (llm_model_name self)
    (ocr_reader_instance self) (llm_model_instance self) (threadpool self)
    (current_worker_runnable self) (stop_current_worker_event self)
    (stop_events self) (progress_bar self) (status_label self)
    (analyze_button self) (cancel_task_button self)
    (select_image_button self) (open_dialogs self).

Definition set_raw_ocr_text (v : str) (self : MainWindow) : MainWindow :=
  mkMainWindow (current_image_path self) v (current_corrected_text self)
    (final_accepted_text_for_explanation self) (llm_model_name self)
    (ocr_reader_instance self) (llm_model_instance self) (threadpool self)
    (current_worker_runnable self) (stop_current_worker_event self)
    (stop_events self) (progress_bar self) (status_label self)
    (analyze_button self) (cancel_task_button self)
    (select_image_button self) (open_dialogs self).

Definition set_current_corrected_text (v : str) (self : MainWindow) : MainWindow :=
  mkMainWindow (current_image_path self) (raw_ocr_text self) v
    (final_accepted_text_for_explanation self) (llm_model_name self)
    (ocr_reader_instance self) (llm_model_instance self) (threadpool self)
    (current_worker_runnable self) (stop_current_worker_event self)
    (stop_events self) (progress_bar self) (status_label self)
    (analyze_button self) (cancel_task_button self)
    (select_image_button self) (open_dialogs self).

Definition set_final_accepted_text_for_explanation (v : str) (self : MainWindow) : MainWindow :=
  mkMainWindow (current_image_path self) (raw_ocr_text self)
    (current_corrected_text self) v (llm_model_name self)
    (ocr_reader_instance self) (llm_model_instance self) (threadpool self)
    (current_worker_runnable self) (stop_current_worker_event self)
    (stop_events self) (progress_bar self) (status_label self)
    (analyze_button self) (cancel_task_button self)
    (select_image_button self) (open_dialogs self).

Definition set_threadpool (v : list OCRLLMWorker) (self : MainWindow) : MainWindow :=
  mkMainWindow (current_image_path self) (raw_ocr_text self)
    (current_corrected_text self)
    (final_accepted_text_for_explanation self) (llm_model_name self)
    (ocr_reader_instance self) (llm_model_instance self) v
    (current_worker_runnable self) (stop_current_worker_event self)
    (stop_events self) (progress_bar self) (status_label self)
    (analyze_button self) (cancel_task_button self)
    (select_image_button self) (open_dialogs self).

Definition set_current_worker_runnable (v : option nat) (self : MainWindow) : MainWindow :=
  mkMainWindow (current_image_path self) (raw_ocr_text self)
    (current_corrected_text self)
    (final_accepted_text_for_explanation self) (llm_model_name self)
    (ocr_reader_instance self) (llm_model_instance self) (threadpool self)
    v (stop_current_worker_event self) (stop_events self)
    (progress_bar self) (status_label self) (analyze_button self)
    (cancel_task_button self) (select_image_button self)
    (open_dialogs self).

Definition set_stop_current_worker_event (v : option nat) (self : MainWindow) : MainWindow :=
  mkMainWindow (current_image_path self) (raw_ocr_text self)
    (current_corrected_text self)
    (final_accepted_text_for_explanation self) (llm_model_name self)
    (ocr_reader_instance self) (llm_model_instance self) (threadpool self)
    (current_worker_runnable self) v (stop_events self)
    (progress_bar self) (status_label self) (analyze_button self)
    (cancel_task_button self) (select_image_button self)
    (open_dialogs self).

Definition set_stop_events (v : list bool) (self : MainWindow) : MainWindow :=
  mkMainWindow (current_image_path self) (raw_ocr_text self)
    (current_corrected_text self)
    (final_accepted_text_for_explanation self) (llm_model_name self)
    (ocr_reader_instance self) (llm_model_instance self) (threadpool self)
    (current_worker_runnable self) (stop_current_worker_event self) v
    (progress_bar self) (status_label self) (analyze_button self)
    (cancel_task_button self) (select_image_button self)
    (open_dialogs self).

Definition set_progress_bar (v : Z) (self : MainWindow) : MainWindow :=
  mkMainWindow (current_image_path self) (raw_ocr_text self)
    (current_corrected_text self)
    (final_accepted_text_for_explanation self) (llm_model_name self)
    (ocr_reader_instance self) (llm_model_instance self) (threadpool self)
    (current_worker_runnable self) (stop_current_worker_event self)
    (stop_events self) v (status_label self) (analyze_button self)
    (cancel_task_button self) (select_image_button self)
    (open_dialogs self).

Definition set_status_label (v : str) (self : MainWindow) : MainWindow :=
  mkMainWindow (current_image_path self) (raw_ocr_text self)
    (current_corrected_text self)
    (final_accepted_text_for_explanation self) (llm_model_name self)
    (ocr_reader_instance self) (llm_model_instance self) (threadpool self)
    (current_worker_runnable self) (stop_current_worker_event self)
    (stop_events self) (progress_bar self) v (analyze_button self)
    (cancel_task_button self) (select_image_button self)
    (open_dialogs self).

Definition set_analyze_button (v : bool) (self : MainWindow) : MainWindow :=
  mkMainWindow (current_image_path self) (raw_ocr_text self)
    (current_corrected_text self)
    (final_accepted_text_for_explanation self) (llm_model_name self)
    (ocr_reader_instance self) (llm_model_instance self) (threadpool self)
    (current_worker_runnable self) (stop_current_worker_event self)
    (stop_events self) (progress_bar self) (status_label self) v
    (cancel_task_button self) (select_image_button self)
    (open_dialogs self).

Definition set_cancel_task_button (v : bool) (self : MainWindow) : MainWindow :=
  mkMainWindow (current_image_path self) (raw_ocr_text self)
    (current_corrected_text self)
    (final_accepted_text_for_explanation self) (llm_model_name self)
    (ocr_reader_instance self) (llm_model_instance self) (threadpool self)
    (current_worker_runnable self) (stop_current_worker_event self)
    (stop_events self) (progress_bar self) (status_label self)
    (analyze_button self) v (select_image_button self) (open_dialogs self).

Definition set_select_image_button (v : bool) (self : MainWindow) : MainWindow :=
  mkMainWindow (current_image_path self) (raw_ocr_text self)
    (current_corrected_text self)
    (final_accepted_text_for_explanation self) (llm_model_name self)
    (ocr_reader_instance self) (llm_model_instance self) (threadpool self)
    (current_worker_runnable self) (stop_current_worker_event self)
    (stop_events self) (progress_bar self) (status_label self)
    (analyze_button self) (cancel_task_button self) v (open_dialogs self).

Definition set_open_dialogs (v : list Dialog) (self : MainWindow) : MainWindow :=
  mkMainWindow (current_image_path self) (raw_ocr_text self)
    (current_corrected_text self)
    (final_accepted_text_for_explanation self) (llm_model_name self)
    (ocr_reader_instance self) (llm_model_instance self) (threadpool self)
    (current_worker_runnable self) (stop_current_worker_event self)
    (stop_events self) (progress_bar self) (status_label self)
    (analyze_button self) (cancel_task_button self)
    (select_image_button self) v.
(** [s.replace(old, new)] for single characters. *)
Definition replace_char (old new : N) (s : str) : str :=
  map (fun c => if (c =? old)%N then new else c) s.

Definition is_upper (c : N) : bool := ((0x41 <=? c) && (c <=? 0x5A))%N.
Definition is_lower (c : N) : bool := ((0x61 <=? c) && (c <=? 0x7A))%N.

(** [s.title()] on the ASCII letters (the task types are ASCII
    identifiers); other characters are kept and end a word. *)
Fixpoint title_from (previous_is_cased : bool) (s : str) : str :=
  match s with
  | [] => []
  | c :: r =>
    if is_lower c then
      (if previous_is_cased then c else (c - 32)%N) :: title_from true r
    else if is_upper c then
      (if previous_is_cased then (c + 32)%N else c) :: title_from true r
    else c :: title_from false r
  end.
Definition title (s : str) : str := title_from false s.

(** [os.path.basename] with [/] as the separator. *)
Fixpoint basename_from (component : str) (s : str) : str :=
  match s with
  | [] => component
  | c :: r => if (c =? 0x2F)%N then basename_from [] r
              else basename_from (component ++ [c]) r
  end.
Definition basename (p : str) : str := basename_from [] p.

(** A character at which [str.splitlines] cuts. *)
Definition is_linebreak (c : N) : bool :=
  (((0x0A <=? c) && (c <=? 0x0D)) || ((0x1C <=? c) && (c <=? 0x1E))
   || (c =? 0x85) || (c =? 0x2028) || (c =? 0x2029))%N.

Fixpoint until_linebreak (s : str) : str :=
  match s with
  | [] => []
  | c :: r => if is_linebreak c then [] else c :: until_linebreak r
  end.

(** [s.splitlines()[0]]: an [IndexError] ([None]) on the empty string. *)
Definition splitlines_0 (s : str) : option str :=
  match s with [] => None | _ => Some (until_linebreak s) end.

Definition initial_status : str :=
  lit "이미지 파일을 드래그 앤 드롭하거나 '이미지 선택' 버튼을 클릭하세요.".

(** [MainWindow.__init__]: the engines are loaded once, here; a failed load
    leaves [None]. *)
Definition MainWindow_init (G : Globals) (W : World) : MainWindow := {|
  current_image_path := None;
  raw_ocr_text := [];
  current_corrected_text := [];
  final_accepted_text_for_explanation := [];
  llm_model_name := lit "Meta-Llama-3-8B-Instruct.Q4_0.gguf";
  ocr_reader_instance :=
    if easyocr G then
      match easyocr_Reader W with inr r => Some r | inl _ => None end
    else None;
  llm_model_instance :=
    if GPT4All G then
      match GPT4All_load W (lit "Meta-Llama-3-8B-Instruct.Q4_0.gguf") with
      | inr m => Some m
      | inl _ => None
      end
    else None;
  threadpool := [];
  current_worker_runnable := None;
  stop_current_worker_event := None;
  stop_events := [];
  progress_bar := 0;
  status_label := initial_status;
  analyze_button := false;
  cancel_task_button := true;
  select_image_button := true;
  open_dialogs := []
|}.

Definition update_status_message (message : str) (self : MainWindow) : MainWindow :=
  set_status_label message self.

Definition set_buttons_for_task_running_state (is_running : bool)
    (self : MainWindow) : MainWindow :=
  let self := set_analyze_button
                (negb is_running && truthy_opt (current_image_path self)) self in
  let self := set_cancel_task_button true self in
  set_select_image_button (negb is_running) self.

Definition reset_ui_after_task (full_reset : bool) (self : MainWindow) : MainWindow :=
  let self := set_progress_bar 0 self in
  let self := set_raw_ocr_text [] self in
  let self := set_current_corrected_text [] self in
  let self := set_final_accepted_text_for_explanation [] self in
  let self :=
    if full_reset then
      let self := set_current_image_path None self in
      let self := set_analyze_button false self in
      update_status_message (lit "초기화 완료. 새 이미지를 선택하세요.") self
    else
      let self := set_analyze_button (truthy_opt (current_image_path self)) self in
      update_status_message
        (lit "작업 완료. 다음 분석을 진행하거나 새 이미지를 선택하세요.") self in
  set_buttons_for_task_running_state false self.

(** [exec()] of a modal dialog: the method that calls it resumes when the
    dialog is closed. *)
Definition open_dialog (d : Dialog) (self : MainWindow) : MainWindow :=
  set_open_dialogs (d :: open_dialogs self) self.

(** [cancel_current_worker_if_running]: sets the stop event of the current
    worker and empties the slot at once; the result says whether there was
    a worker. *)
Definition cancel_current_worker_if_running (self : MainWindow) : MainWindow * bool :=
  match current_worker_runnable self, stop_current_worker_event self with
  | Some _, Some ev =>
    let self := update_status_message (lit "현재 작업 중지 시도 중...") self in
    let self := set_stop_events (<[ev := true]> (stop_events self)) self in
    let self := set_current_worker_runnable None self in
    let self := set_stop_current_worker_event None self in
    let self := set_buttons_for_task_running_state false self in
    let self := set_progress_bar 0 self in
    (self, true)
  | _, _ => (self, false)
  end.

Definition cancel_or_reset_all_processes (self : MainWindow) : MainWindow :=
  let '(self, cancelled) := cancel_current_worker_if_running self in
  let self :=
    if cancelled then
      update_status_message (lit "진행 중인 작업이 중지되었습니다. 초기화합니다.") self
    else update_status_message (lit "초기화 완료.") self in
  reset_ui_after_task true self.

Definition load_image_and_prepare_analysis (image_path : str)
    (self : MainWindow) : MainWindow :=
  let self := fst (cancel_current_worker_if_running self) in
  let self := set_current_image_path (Some image_path) self in
  let self := set_raw_ocr_text [] self in
  let self := set_current_corrected_text [] self in
  let self := set_final_accepted_text_for_explanation [] self in
  let self := set_progress_bar 0 self in
  let self := set_analyze_button true self in
  update_status_message
    (lit "이미지 로드: " ++ basename image_path
     ++ lit ". '이미지 분석' 버튼을 클릭하세요.") self.

(** Truth value of an engine attribute: [None] or a loaded engine. *)
Definition loaded {A} (instance : option A) : bool :=
  match instance with Some _ => true | None => false end.

Definition busy_message : str :=
  lit "오류: 다른 작업이 이미 실행 중입니다. 현재 작업을 취소 후 다시 시도해주세요.".

(** [_start_background_worker(task_type, **kwargs)], the keyword arguments
    being [image_path] and [text_input]. *)
Definition _start_background_worker (task_type : str)
    (image_path text_input : option str) (self : MainWindow) : MainWindow :=
  match current_worker_runnable self with
  | Some _ => update_status_message busy_message self
  | None =>
    let self := set_progress_bar 0 self in
    let ev := length (stop_events self) in
    let self := set_stop_events (stop_events self ++ [false]) self in
    let self := set_stop_current_worker_event (Some ev) self in
    let worker := {|
      task_type := task_type;
      image_path := image_path;
      text_input := text_input;
      model_name := llm_model_name self;
      stop_event := ev;
      ocr_reader := ocr_reader_instance self;
      llm_model := llm_model_instance self
    |} in
    let self := set_current_worker_runnable (Some (length (threadpool self))) self in
    let self := set_threadpool (threadpool self ++ [worker]) self in
    let self := set_buttons_for_task_running_state true self in
    update_status_message
      (title (replace_char 0x5F 0x20 task_type) ++ lit " 작업 시작...") self
  end.

Definition run_ocr_correction_task (G : Globals) (self : MainWindow) : MainWindow :=
  if negb (truthy_opt (current_image_path self)) then
    update_status_message (lit "오류: 분석할 이미지가 선택되지 않았습니다.") self
  else if negb (loaded (ocr_reader_instance self)) && negb (easyocr G) then
    open_dialog (message_box Critical (lit "EasyOCR 오류")
      (lit "EasyOCR 라이브러리가 없거나 로드에 실패하여 분석을 진행할 수 없습니다.")
      in_run_task) self
  else if negb (loaded (llm_model_instance self)) && negb (GPT4All G) then
    open_dialog (message_box Critical (lit "GPT4All 오류")
      (lit "GPT4All 라이브러리가 없거나 로드에 실패하여 분석을 진행할 수 없습니다.")
      in_run_task) self
  else if negb (cv2 G) then
    open_dialog (message_box Critical (lit "OpenCV 오류")
      (lit "OpenCV(cv2) 라이브러리가 없어 이미지 분석을 진행할 수 없습니다.")
      in_run_task) self
  else
    let self := set_raw_ocr_text [] self in
    let self := set_current_corrected_text [] self in
    _start_background_worker (lit "ocr_correct") (current_image_path self) None self.

Definition run_explanation_task (G : Globals) (text_for_explanation : str)
    (self : MainWindow) : MainWindow :=
  if negb (truthy text_for_explanation) then
    update_status_message (lit "오류: 해설할 텍스트가 없습니다.") self
  else if negb (loaded (llm_model_instance self)) && negb (GPT4All G) then
    open_dialog (message_box Critical (lit "GPT4All 오류")
      (lit "GPT4All 라이브러리가 없거나 로드에 실패하여 해설을 진행할 수 없습니다.")
      in_run_task) self
  else
    _start_background_worker (lit "explain") None (Some text_for_explanation) self.

(** [show_comparison_dialog] up to [dialog.exec()]. *)
Definition show_comparison_dialog (self : MainWindow) : MainWindow :=
  if negb (truthy_opt (current_image_path self)) then
    let self := update_status_message (lit "오류: 비교할 이미지가 없습니다.") self in
    reset_ui_after_task true self
  else
    let dialog := ComparisonDialog_init (current_image_path self)
                    (raw_ocr_text self) (current_corrected_text self) in
    open_dialog (comparison_dialog dialog) self.

(** [show_comparison_dialog] from the return of [dialog.exec()] on. *)
Definition show_comparison_dialog_result (G : Globals)
    (dialog : ComparisonDialog) (dialog_result : Z) (self : MainWindow) : MainWindow :=
  if (dialog_result =? 1)%Z then
    let self := update_status_message
                  (lit "재시도 요청됨. 이미지 분석을 다시 시작합니다.") self in
    run_ocr_correction_task G self
  else if (dialog_result =? 2)%Z then
    let self := set_final_accepted_text_for_explanation
                  (get_accepted_text dialog) self in
    if truthy (final_accepted_text_for_explanation self)
       && truthy (strip (final_accepted_text_for_explanation self)) then
      let self := update_status_message
                    (lit "정제된 텍스트 수락됨. 문서 해설을 시작합니다.") self in
      run_explanation_task G (final_accepted_text_for_explanation self) self
    else
      open_dialog (message_box Warning (lit "텍스트 없음")
        (lit "해설을 위한 텍스트가 없습니다. 다시 시도해주세요.")
        in_show_comparison_dialog) self
  else
    let self := update_status_message
                  (lit "비교 작업 취소됨. 초기 상태로 돌아갑니다.") self in
    reset_ui_after_task true self.

(** [show_explanation_dialog] up to [dialog.exec()]. *)
Definition show_explanation_dialog (explanation_text : str)
    (self : MainWindow) : MainWindow :=
  open_dialog
    (explanation_dialog (if truthy explanation_text then explanation_text
                         else lit "해설 결과가 없습니다.")) self.

Definition handle_worker_result (task_type data : str) (self : MainWindow) : MainWindow :=
  if str_eqb task_type (lit "ocr_result") then
    let self := set_raw_ocr_text data self in
    update_status_message (lit "OCR 추출 완료. LLM으로 정제 중...") self
  else if str_eqb task_type (lit "corrected_text_result") then
    let self := set_current_corrected_text data self in
    let self := update_status_message
                  (lit "LLM 정제 완료. 결과 확인 및 다음 단계 진행 가능.") self in
    show_comparison_dialog self
  else if str_eqb task_type (lit "explanation_result") then
    show_explanation_dialog data self
  else self.

(** [QProgressBar.setValue] with the range 0 to 100 the bar is created
    with: a value outside the range is ignored. *)
Definition handle_worker_progress (task_type : str) (value : Z)
    (self : MainWindow) : MainWindow :=
  if (0 <=? value)%Z && (value <=? 100)%Z then set_progress_bar value self
  else self.

Definition handle_worker_finished (self : MainWindow) : MainWindow :=
  let self :=
    match current_worker_runnable self with
    | Some w =>
      match threadpool self !! w with
      | Some worker =>
        if negb (str_eqb (task_type worker) (lit "corrected_text_result"))
        then set_progress_bar 100 self else self
      | None => self
      end
    | None => self
    end in
  let self := set_buttons_for_task_running_state false self in
  let self := set_current_worker_runnable None self in
  set_stop_current_worker_event None self.

(** [handle_worker_error] up to the message box; [None] is the
    [IndexError] of [splitlines()[0]] on an empty message. *)
Definition handle_worker_error (error_message : str) (self : MainWindow)
    : option MainWindow :=
  first_line ← splitlines_0 error_message;
  let self := update_status_message (lit "오류 발생: " ++ first_line) self in
  Some (open_dialog (message_box Critical (lit "작업 오류")
          (lit "오류가 발생했습니다:" ++ nl ++ error_message)
          in_handle_worker_error) self).

(** [handle_worker_error] after the message box. *)
Definition handle_worker_error_rest (self : MainWindow) : MainWindow :=
  let self := set_progress_bar 0 self in
  let self := set_buttons_for_task_running_state false self in
  let self := set_current_worker_runnable None self in
  let self := set_stop_current_worker_event None self in
  reset_ui_after_task true self.

(** The innermost dialog is closed. *)
Definition pop_dialog (self : MainWindow) : MainWindow :=
  set_open_dialogs (tail (open_dialogs self)) self.

(** The human resolves the comparison dialog the window is blocked in:
    [exec()] returns and [show_comparison_dialog] resumes. *)
Definition review (G : Globals) (h : ReviewDecision) (self : MainWindow)
    : option MainWindow :=
  match open_dialogs self with
  | comparison_dialog d :: _ =>
    let '(dialog, dialog_result) := exec d h in
    Some (show_comparison_dialog_result G dialog dialog_result (pop_dialog self))
  | _ => None
  end.

(** The human closes the explanation dialog or the message box the window
    is blocked in, and the method that opened it resumes. *)
Definition close_dialog (self : MainWindow) : option MainWindow :=
  match open_dialogs self with
  | explanation_dialog _ :: _ =>
    (* rest of [show_explanation_dialog], then of [handle_worker_result] *)
    let self := reset_ui_after_task true (pop_dialog self) in
    Some (update_status_message (lit "문서 해설 완료.") self)
  | message_box _ _ _ in_handle_worker_error :: _ =>
    Some (handle_worker_error_rest (pop_dialog self))
  | message_box _ _ _ in_show_comparison_dialog :: _ =>
    Some (reset_ui_after_task false (pop_dialog self))
  | message_box _ _ _ in_run_task :: _ => Some (pop_dialog self)
  | _ => None
  end.

(** ** The window and its workers *)

(** The main window together with the signals that have reached its slots
    so far, each with the worker (its position in [threadpool]) that
    emitted it. *)
Record System : Type := mkSystem {
  win : MainWindow;
  observed : list (nat * Signal)
}.

(** What can happen next on the GUI thread. *)
Inductive Action : Type :=
(** a file chosen in [open_image_file_dialog], or dropped on the window *)
| select_image (file_path : str)
| click_analyze
| click_cancel
(** a queued signal of worker [w] reaches its slot *)
| deliver (w : nat) (sig : Signal)
(** the human resolves the comparison dialog *)
| user_review (h : ReviewDecision)
(** the human closes the explanation dialog or a message box *)
| user_close.

(** The signals of worker [w] among those observed, in order. *)
Definition signals_of (w : nat) (log : list (nat * Signal)) : list Signal :=
  snd <$> filter (fun e => fst e = w) log.

(** The answers [is_set()] can have given so far to a worker whose stop
    event is, or is not, set by now: an event is never cleared, so the
    answers of one run are [False] up to some call and [True] from then
    on, and all [False] if the event is still unset. *)
Definition polls (set_by_now : bool) : list (nat -> bool) :=
  (fun _ => false)
  :: (if set_by_now
      then [ (fun n => 2 <=? n)%nat; (fun n => 1 <=? n)%nat; (fun _ => true) ]
      else []).

(** The slot a signal is connected to in [_start_background_worker]. *)
Definition slot (sig : Signal) (self : MainWindow) : option MainWindow :=
  match sig with
  | finished => Some (handle_worker_finished self)
  | error error_message => handle_worker_error error_message self
  | result task_type data => Some (handle_worker_result task_type data self)
  | progress task_type value => Some (handle_worker_progress task_type value self)
  end.

Definition no_dialog (self : MainWindow) : bool :=
  match open_dialogs self with [] => true | _ => false end.

Section Step.

(** The imports that succeeded, and the world each worker runs in. *)
Variable G : Globals.
Variable world : nat -> World.

(** Worker [w] may have emitted [sigs], in this order, by now. *)
Definition may_have_emitted (self : MainWindow) (w : nat) (sigs : list Signal) : bool :=
  match threadpool self !! w with
  | Some worker =>
    let set_by_now := default false (stop_events self !! stop_event worker) in
    existsb (fun is_set => bool_decide (sigs `prefix_of` run G (world w) is_set worker))
            (polls set_by_now)
  | None => false
  end.

(** One step of the GUI thread; [None] when the action cannot happen in
    this state.  While a modal dialog is open the main window takes no
    input, but queued signals are still delivered.  An image can be
    selected whatever the state of the selection button, as [dropEvent]
    does not look at it; the suffix test of [dropEvent] is left out. *)
Definition step (sys : System) (a : Action) : option System :=
  let self := win sys in
  match a with
  | select_image file_path =>
    if no_dialog self && truthy file_path
    then Some (mkSystem (load_image_and_prepare_analysis file_path self) (observed sys))
    else None
  | click_analyze =>
    if no_dialog self && analyze_button self
    then Some (mkSystem (run_ocr_correction_task G self) (observed sys))
    else None
  | click_cancel =>
    if no_dialog self && cancel_task_button self
    then Some (mkSystem (cancel_or_reset_all_processes self) (observed sys))
    else None
  | deliver w sig =>
    if may_have_emitted self w (signals_of w (observed sys) ++ [sig])
    then self' ← slot sig self; Some (mkSystem self' (observed sys ++ [(w, sig)]))
    else None
  | user_review h =>
    self' ← review G h self; Some (mkSystem self' (observed sys))
  | user_close =>
    self' ← close_dialog self; Some (mkSystem self' (observed sys))
  end.

(** A sequence of steps. *)
Fixpoint steps (sys : System) (actions : list Action) : option System :=
  match actions with
  | [] => Some sys
  | a :: rest => sys' ← step sys a; steps sys' rest
  end.

End Step.

(** The application right after start-up. *)
Definition initial (G : Globals) (W : World) : System :=
  mkSystem (MainWindow_init G W) [].

(** ** Vocabulary of the properties *)

(** The signals of a complete recognise-and-correct run, before
    [finished], and those of a complete explanation run. *)
Definition ocr_signals (T raw corrected : str) : list Signal :=
  [ progress T 5; progress T 10; result (lit "ocr_result") raw;
    progress T 50; progress T 55;
    result (lit "corrected_text_result") corrected; progress T 100 ].

Definition explain_signals (T explanation : str) : list Signal :=
  [ progress T 10; result (lit "explanation_result") explanation;
    progress T 100 ].

(** The run reached the end of its [try] block: no exception and no
    early [return]. *)
Definition succeeded (G : Globals) (W : World) (is_set : nat -> bool)
    (self : OCRLLMWorker) : Prop :=
  snd (run_try G W is_set self) = Normal tt.

(** [raw] is the text recognised in the image of the worker: the fragments
    [readtext] returned, joined with newlines. *)
Definition recognized (W : World) (self : OCRLLMWorker) (raw : str) : Prop :=
  exists r path fragments,
    image_path self = Some path
    /\ (ocr_reader self = Some r
        \/ (ocr_reader self = None /\ easyocr_Reader W = inr r))
    /\ readtext W r path = inr fragments
    /\ raw = join nl fragments.

(** The model the worker generates with: the preloaded one, or the one it
    loads itself. *)
Definition uses_model (W : World) (self : OCRLLMWorker) (m : model) : Prop :=
  llm_model self = Some m
  \/ (llm_model self = None /\ GPT4All_load W (model_name self) = inr m).

(** [corrected] is the stripped answer of the model to the correction
    prompt built from [raw]. *)
Definition corrected_from (W : World) (self : OCRLLMWorker) (raw corrected : str) : Prop :=
  exists m output,
    uses_model W self m
    /\ generate W m (prompt_template_correction raw) (len raw * 2 + 300)
                0.6%Q 40 0.9%Q = inr output
    /\ corrected = strip output.

(** [explanation] is the stripped answer of the model to the explanation
    prompt built from the text input of the worker. *)
Definition explained (W : World) (self : OCRLLMWorker) (explanation : str) : Prop :=
  exists m text output,
    text_input self = Some text
    /\ uses_model W self m
    /\ generate W m (prompt_template_explanation text) (len text + 500)
                0.7%Q 50 0.95%Q = inr output
    /\ explanation = strip output.



(** How often [finished] occurs. *)
Definition finished_count (sigs : list Signal) : nat :=
  length (filter (fun s => s = finished) sigs).

(** How a run ends: the [try] block ran to its end; a [check_stop] saw
    the stop event and returned; an exception reached the [except]
    clause. *)
Inductive Ending : Type :=
| completed
| stopped
| failed (error_message : str).

(** What the run emits at its end, the [finally] clause included. *)
Definition ending_signals (e : Ending) : list Signal :=
  match e with
  | completed => [finished]
  | stopped => [finished; finished]
  | failed error_message => [error error_message; finished]
  end.

(** A checker for the order of the results: no [corrected_text_result]
    before an [ocr_result] was seen. *)
Fixpoint raw_precedes_corrected (seen_raw : bool) (sigs : list Signal) : bool :=
  match sigs with
  | [] => true
  | result kind _ :: rest =>
    if str_eqb kind (lit "corrected_text_result")
    then seen_raw && raw_precedes_corrected seen_raw rest
    else if str_eqb kind (lit "ocr_result")
         then raw_precedes_corrected true rest
         else raw_precedes_corrected seen_raw rest
  | _ :: rest => raw_precedes_corrected seen_raw rest
  end.

(** The image a recognise-and-correct worker is given cannot be read:
    no path, an empty path, a path that does not exist, or a file OpenCV
    cannot load. *)
Definition unreadable (W : World) (image_path : option str) : Prop :=
  match image_path with
  | None => True
  | Some p => truthy p = false \/ os_path_exists W p = false \/ cv2_imread W p = false
  end.

(** The slot and the stop event are set together, and refer to a worker
    of the pool and to its event. *)
Definition coherent (self : MainWindow) : Prop :=
  match current_worker_runnable self, stop_current_worker_event self with
  | None, None => True
  | Some w, Some ev =>
    (exists worker, threadpool self !! w = Some worker /\ stop_event worker = ev)
    /\ (ev < length (stop_events self))%nat
  | _, _ => False
  end.

(** The window with [doc.png] loaded and a first worker started. *)
Definition busy_window : MainWindow :=
  run_ocr_correction_task all_libs
    (load_image_and_prepare_analysis (lit "doc.png")
       (MainWindow_init all_libs demo_world)).

(** A world whose model answers the correction prompt with a typo. *)
Definition typo_world : World := {|
  os_path_exists := fun p => str_eqb p (lit "doc.png");
  cv2_imread := fun p => str_eqb p (lit "doc.png");
  easyocr_Reader := inr 0%nat;
  readtext := fun _ _ => inr [lit "Hello wrold"];
  GPT4All_load := fun _ => inr 0%nat;
  generate := fun _ _ _ _ _ _ => inr (lit "Hello wrold.");
  traceback_format_exc := fun _ => lit "Traceback"
|}.

(** The steps from start-up to the review of a first attempt whose worker
    has finished: the comparison dialog is open on [Hello wrold.]. *)
Definition to_the_review : list Action :=
  [ select_image (lit "doc.png"); click_analyze;
    deliver 0 (progress (lit "ocr_correct") 5);
    deliver 0 (progress (lit "ocr_correct") 10);
    deliver 0 (result (lit "ocr_result") (lit "Hello wrold"));
    deliver 0 (progress (lit "ocr_correct") 50);
    deliver 0 (progress (lit "ocr_correct") 55);
    deliver 0 (result (lit "corrected_text_result") (lit "Hello wrold."));
    deliver 0 (progress (lit "ocr_correct") 100);
    deliver 0 finished ].

Definition review_window : MainWindow :=
  match steps all_libs (fun _ => typo_world) (initial all_libs typo_world)
          to_the_review with
  | Some sys => win sys
  | None => MainWindow_init all_libs typo_world
  end.

(** ** Executions without cancellation and without error *)

(** The action cancels the worker that holds the slot: the cancel button,
    or a new image, while [cancel_current_worker_if_running] finds a
    worker. *)
Definition cancels (self : MainWindow) (a : Action) : bool :=
  match a with
  | select_image _ | click_cancel => snd (cancel_current_worker_if_running self)
  | _ => false
  end.

(** The action delivers an [error] signal. *)
Definition reports_error (a : Action) : bool :=
  match a with
  | deliver _ (error _) => true
  | _ => false
  end.

(** A step that neither cancels a worker nor delivers an error. *)
Definition calm_step (G : Globals) (world : nat -> World) (sys : System)
    (a : Action) : option System :=
  if cancels (win sys) a || reports_error a then None else step G world sys a.

Fixpoint calm_steps (G : Globals) (world : nat -> World) (sys : System)
    (actions : list Action) : option System :=
  match actions with
  | [] => Some sys
  | a :: rest => sys' ← calm_step G world sys a; calm_steps G world sys' rest
  end.

(** The signals of a worker are observed in one block: once a signal of a
    later worker is observed, none of an earlier worker follows. *)
Definition not_interleaved (log : list (nat * Signal)) : Prop :=
  forall i j e1 e2, (i <= j)%nat -> log !! i = Some e1 -> log !! j = Some e2 ->
    (fst e1 <= fst e2)%nat.

(** The message box of [handle_worker_error]. *)
Definition is_error_box (d : Dialog) : Prop :=
  match d with
  | message_box _ _ _ in_handle_worker_error => True
  | _ => False
  end.

(** The invariant of these executions, on the pool, the slot, the stop
    events, the open dialogs and the observed signals: no stop event is
    set; every observed signal is of a worker of the pool; the slot is
    empty and every worker has been seen to finish, or it holds the last
    worker and every earlier one has been seen to finish; the signals are
    not interleaved; no error box is open. *)
Definition orderly_view (pool : list OCRLLMWorker) (slot_ : option nat)
    (events : list bool) (dialogs : list Dialog) (log : list (nat * Signal)) : Prop :=
  Forall (fun b => b = false) events
  /\ (forall w s, (w, s) ∈ log -> (w < length pool)%nat)
  /\ match slot_ with
     | None => forall w, (w < length pool)%nat -> (w, finished) ∈ log
     | Some i => S i = length pool /\ forall w, (w < i)%nat -> (w, finished) ∈ log
     end
  /\ not_interleaved log
  /\ Forall (fun d => ~ is_error_box d) dialogs.

Definition view_of (log : list (nat * Signal)) (self : MainWindow) : Prop :=
  orderly_view (threadpool self) (current_worker_runnable self)
    (stop_events self) (open_dialogs self) log.

Definition orderly (sys : System) : Prop := view_of (observed sys) (win sys).

(** Start, cancel, select the image again and start again: the second
    attempt is started before any signal of the first was observed. *)
Definition cancel_then_restart : list Action :=
  [ select_image (lit "doc.png"); click_analyze; click_cancel;
    select_image (lit "doc.png"); click_analyze ].

(** The system at the review of the first attempt. *)
Definition review_system : System :=
  match steps all_libs (fun _ => typo_world) (initial all_libs typo_world)
          to_the_review with
  | Some sys => sys
  | None => initial all_libs typo_world
  end.

(** The worker started on [missing.png], and what it reports. *)
Definition missing_worker : OCRLLMWorker :=
  mkWorker (lit "ocr_correct") (Some (lit "missing.png")) None
    (lit "Meta-Llama-3-8B-Instruct.Q4_0.gguf") 0 (Some 0%nat) (Some 0%nat).

Definition missing_error : Signal :=
  error (error_msg demo_world missing_worker
           (ValueError (lit "OCR을 위한 이미지 경로가 유효하지 않습니다."))).


(** *** The normal forms of the result data

    Written from the words of the specification, not from the helpers
    [join] and [strip] of the embedding: the theorem on the result data
    compares the two. *)

(** Whitespace, as removed by [str.strip()]: the characters of the Unicode
    property White_Space and the four information separators U+001C to
    U+001F. *)
Definition whitespace (c : N) : Prop :=
  c ∈ [ 9; 10; 11; 12; 13; 28; 29; 30; 31; 32; 133; 160; 5760;
        8192; 8193; 8194; 8195; 8196; 8197; 8198; 8199; 8200; 8201; 8202;
        8232; 8233; 8239; 8287; 12288 ]%N.

(** [data] is [output] without its leading and trailing whitespace: only
    whitespace was removed, and [data] neither starts nor ends with it. *)
Definition stripped (output data : str) : Prop :=
  exists leading trailing,
    output = leading ++ data ++ trailing
    /\ Forall whitespace leading
    /\ Forall whitespace trailing
    /\ (forall c rest, data = c :: rest -> ~ whitespace c)
    /\ (forall c rest, data = rest ++ [c] -> ~ whitespace c).

(** The fragments in their order, with the newline character U+000A, and
    nothing else, between neighbours. *)
Definition newline_joined (fragments : list str) : str :=
  match fragments with
  | [] => []
  | first :: others => first ++ concat (map (cons 10%N) others)
  end.

(** The recognition engine returned [fragments] for the image of the
    worker, with the reader preloaded or loaded by the worker. *)
Definition reads (W : World) (self : OCRLLMWorker) (fragments : list str) : Prop :=
  exists r path,
    image_path self = Some path
    /\ (ocr_reader self = Some r
        \/ (ocr_reader self = None /\ easyocr_Reader W = inr r))
    /\ readtext W r path = inr fragments.

(** The generation engine returned [output] for this call, with the model
    preloaded or loaded by the worker. *)
Definition answers (W : World) (self : OCRLLMWorker) (prompt : str)
    (max_tokens : Z) (temp : Q) (top_k : Z) (top_p : Q) (output : str) : Prop :=
  exists m,
    uses_model W self m
    /\ generate W m prompt max_tokens temp top_k top_p = inr output.

(** A page recognised in two fragments, and a model that answers with
    blanks, a tab and a line end around its text. *)
Definition two_line_world : World := {|
  os_path_exists := fun p => str_eqb p (lit "doc.png");
  cv2_imread := fun p => str_eqb p (lit "doc.png");
  easyocr_Reader := inr 0%nat;
  readtext := fun _ _ => inr [lit "Hello"; lit "wrold"];
  GPT4All_load := fun _ => inr 0%nat;
  generate := fun _ _ _ _ _ _ => inr ([32; 9]%N ++ lit "Hello world." ++ [32; 13; 10]%N);
  traceback_format_exc := fun _ => lit "Traceback"
|}.


(** ** The rest of the window *)

(** [closeEvent], up to the wait for the thread pool. *)
Definition closeEvent (self : MainWindow) : MainWindow :=
  fst (cancel_current_worker_if_running
         (update_status_message (lit "애플리케이션 종료 중...") self)).

(** The libraries the [__main__] block finds missing, in its order. *)
Definition missing_libs (G : Globals) : list str :=
  (if easyocr G then [] else [lit "EasyOCR"])
  ++ (if GPT4All G then [] else [lit "GPT4All"])
  ++ (if cv2 G then [] else [lit "OpenCV (cv2)"]).

(** How the [__main__] block ends up: [sys.exit(1)] after the error
    dialog, or the window shown. *)
Inductive Startup : Type :=
| exited (code : Z) (error_text : str)
| shown (sys : System).

Definition main (G : Globals) (W : World) : Startup :=
  if negb (easyocr G) || negb (GPT4All G) || negb (cv2 G) then
    exited 1 (lit "필수 라이브러리 (" ++ join (lit ", ") (missing_libs G)
              ++ lit ")가 설치되지 않았거나 로드에 실패했습니다.")
  else shown (initial G W).

(** ** Vocabulary of the further properties *)

(** The data of the [result] signals of one kind, in order. *)
Definition results_of (kind : str) (sigs : list Signal) : list str :=
  omap (fun s => match s with
                 | result k data => if str_eqb k kind then Some data else None
                 | _ => None
                 end) sigs.

(** The reader the worker recognises with: the preloaded one, or the one
    it loads itself. *)
Definition uses_reader (W : World) (self : OCRLLMWorker) (r : reader) : Prop :=
  ocr_reader self = Some r
  \/ (ocr_reader self = None /\ easyocr_Reader W = inr r).

(** What the window hands to a worker it starts: the selected image and
    no text for a recognise-and-correct worker, a text that is not blank
    and no image for an explanation worker. *)
Definition payload_ok (worker : OCRLLMWorker) : Prop :=
  (task_type worker = lit "ocr_correct"
   /\ (exists p, image_path worker = Some p /\ truthy p = true)
   /\ text_input worker = None)
  \/ (task_type worker = lit "explain"
      /\ image_path worker = None
      /\ exists t, text_input worker = Some t /\ truthy (strip t) = true).

(** The worker carries the model name and the engines of the window. *)
Definition staffed_by (self : MainWindow) (worker : OCRLLMWorker) : Prop :=
  model_name worker = llm_model_name self
  /\ ocr_reader worker = ocr_reader_instance self
  /\ llm_model worker = llm_model_instance self.

(** The four ways a step changes the pool, the slot, its event and the
    stop events: not at all; a worker is started on a free slot, with a
    fresh unset event; the worker in the slot is cancelled; the slot is
    released. *)
Inductive slot_change (self self' : MainWindow) : Prop :=
| slot_kept :
    threadpool self' = threadpool self ->
    current_worker_runnable self' = current_worker_runnable self ->
    stop_current_worker_event self' = stop_current_worker_event self ->
    stop_events self' = stop_events self ->
    slot_change self self'
| slot_taken (worker : OCRLLMWorker) :
    current_worker_runnable self = None ->
    threadpool self' = threadpool self ++ [worker] ->
    current_worker_runnable self' = Some (length (threadpool self)) ->
    stop_current_worker_event self' = Some (length (stop_events self)) ->
    stop_events self' = stop_events self ++ [false] ->
    stop_event worker = length (stop_events self) ->
    staffed_by self worker ->
    payload_ok worker ->
    slot_change self self'
| slot_cancelled (w ev : nat) :
    current_worker_runnable self = Some w ->
    stop_current_worker_event self = Some ev ->
    threadpool self' = threadpool self ->
    current_worker_runnable self' = None ->
    stop_current_worker_event self' = None ->
    stop_events self' = <[ev := true]> (stop_events self) ->
    slot_change self self'
| slot_released :
    threadpool self' = threadpool self ->
    current_worker_runnable self' = None ->
    stop_current_worker_event self' = None ->
    stop_events self' = stop_events self ->
    slot_change self self'.

(** The model name and the preloaded engines are the same. *)
Definition same_engines (self self' : MainWindow) : Prop :=
  llm_model_name self' = llm_model_name self
  /\ ocr_reader_instance self' = ocr_reader_instance self
  /\ llm_model_instance self' = llm_model_instance self.

(** Stop events and workers correspond: every worker has the event at its
    own position; the slot, when taken, holds the last worker, its event
    is that worker's and is unset. *)
Definition tokens (self : MainWindow) : Prop :=
  length (stop_events self) = length (threadpool self)
  /\ (forall i worker, threadpool self !! i = Some worker -> stop_event worker = i)
  /\ match current_worker_runnable self, stop_current_worker_event self with
     | None, None => True
     | Some w, Some ev =>
       ev = w /\ S w = length (threadpool self) /\ stop_events self !! w = Some false
     | _, _ => False
     end.

(** The buttons: cancel is always enabled, and analysis only while an
    image is selected. *)
Definition buttons_ok (self : MainWindow) : Prop :=
  cancel_task_button self = true
  /\ (analyze_button self = true ->
      exists p, current_image_path self = Some p /\ truthy p = true).

(** The critical message box of a missing library. *)
Definition is_library_box (d : Dialog) : Prop :=
  match d with
  | message_box _ _ _ in_run_task => True
  | _ => False
  end.

(** No message box of a missing library is open. *)
Definition library_box_free (self : MainWindow) : Prop :=
  Forall (fun d => ~ is_library_box d) (open_dialogs self).

(** The system after an analysis was started, cancelled and started
    again on the same image. *)
Definition restarted_system : System :=
  match steps all_libs (fun _ => demo_world) (initial all_libs demo_world)
          cancel_then_restart with
  | Some sys => sys
  | None => initial all_libs demo_world
  end.

(** A model that answers the correction prompt with blanks only. *)
Definition blank_world : World := {|
  os_path_exists := fun p => str_eqb p (lit "doc.png");
  cv2_imread := fun p => str_eqb p (lit "doc.png");
  easyocr_Reader := inr 0%nat;
  readtext := fun _ _ => inr [lit "Hello wrold"];
  GPT4All_load := fun _ => inr 0%nat;
  generate := fun _ _ _ _ _ _ => inr [32; 10]%N;
  traceback_format_exc := fun _ => lit "Traceback"
|}.

(** The steps from start-up to the point where the first worker is
    generating the correction. *)
Definition to_the_correction : list Action :=
  [ select_image (lit "doc.png"); click_analyze;
    deliver 0 (progress (lit "ocr_correct") 5);
    deliver 0 (progress (lit "ocr_correct") 10);
    deliver 0 (result (lit "ocr_result") (lit "Hello wrold"));
    deliver 0 (progress (lit "ocr_correct") 50);
    deliver 0 (progress (lit "ocr_correct") 55) ].

Definition awaiting_correction : System :=
  match steps all_libs (fun _ => blank_world) (initial all_libs blank_world)
          to_the_correction with
  | Some sys => sys
  | None => initial all_libs blank_world
  end.

(** * Properties *)

(** ** The embedding on concrete inputs *)

Example lit_hangul : lit "작업 '" = [0xC791; 0xC5C5; 0x20; 0x27]%N.
Proof. reflexivity. Qed.

Example strip_example :
  strip (lit "  Hello world.
 ") = lit "Hello world.".
Proof. reflexivity. Qed.

Example join_example :
  join (lit "
") [lit "a"; lit "b"; lit "c"] = [97; 10; 98; 10; 99]%N.
Proof. reflexivity. Qed.

Example run_scenario :
  run all_libs demo_world never_set demo_worker =
  [ progress (lit "ocr_correct") 5; progress (lit "ocr_correct") 10;
    result (lit "ocr_result") (lit "Hello wrold");
    progress (lit "ocr_correct") 50; progress (lit "ocr_correct") 55;
    result (lit "corrected_text_result") (lit "Hello world.");
    progress (lit "ocr_correct") 100; finished ].
Proof. vm_compute. reflexivity. Qed.

Example title_example :
  title (replace_char 0x5F 0x20 (lit "ocr_correct")) = lit "Ocr Correct".
Proof. reflexivity. Qed.

Example isspace_example :
  map isspace [0x20; 0x0A; 0x09; 0xA0; 0x3000; 0x41; 0x200B]%N
  = [true; true; true; true; true; false; false].
Proof. reflexivity. Qed.

(** The scenario, seen from the window: once the signals of the first
    worker are delivered, the comparison dialog is open on the raw and the
    corrected text, and the slot is free. *)
Example review_scenario :
  open_dialogs review_window
  = [ comparison_dialog
        (ComparisonDialog_init (Some (lit "doc.png")) (lit "Hello wrold")
           (lit "Hello wrold.")) ]
  /\ current_worker_runnable review_window = None
  /\ raw_ocr_text review_window = lit "Hello wrold"
  /\ current_corrected_text review_window = lit "Hello wrold.".
Proof. repeat split; vm_compute; reflexivity. Qed.

(** A Redo before [finished] of the first worker is delivered finds the
    slot occupied: no second worker, the busy message. *)
Example early_redo_is_busy :
  (sys ← steps all_libs (fun _ => typo_world) (initial all_libs typo_world)
           (take 8 to_the_review ++ [user_review Redo]);
   Some (length (threadpool (win sys)), status_label (win sys)))
  = Some (1%nat, busy_message).
Proof. vm_compute. reflexivity. Qed.

(** ** The shape of a run *)

#[local] Arguments lit : simpl never.
#[local] Arguments strip : simpl never.
#[local] Arguments join : simpl never.
#[local] Arguments len : simpl never.
#[local] Arguments prompt_template_correction : simpl never.
#[local] Arguments prompt_template_explanation : simpl never.
#[local] Arguments error_msg : simpl never.
#[local] Arguments str_eqb : simpl never.

Lemma str_eqb_eq (a b : str) : str_eqb a b = true <-> a = b.
Proof. unfold str_eqb. apply bool_decide_eq_true. Qed.

Lemma str_eqb_refl (a : str) : str_eqb a a = true.
Proof. by apply str_eqb_eq. Qed.

(** [run] is the [try] block followed by what the [except] and [finally]
    clauses emit. *)
Lemma run_of_try G W is_set self :
  run G W is_set self =
  fst (run_try G W is_set self)
  ++ match snd (run_try G W is_set self) with
     | Raised e => [error (error_msg W self e); finished]
     | _ => [finished]
     end.
Proof.
  unfold run, run_stmt.
  destruct (run_try G W is_set self) as [out [[]| |e]]; cbn;
    rewrite <- ?app_assoc; reflexivity.
Qed.

(** One statement of the [try] block: case analysis on what it tests. *)
Ltac run_step :=
  lazymatch goal with
  | |- context [bind (when ?c _) _] => destruct c eqn:?
  | |- context [bind (check_stop ?c) _] => destruct c eqn:?
  | |- context [bind (call ?r) _] => destruct r eqn:?
  | |- context [bind (match ?x with _ => _ end) _] => destruct x eqn:?
  | |- context [bind (if ?x then _ else _) _] => destruct x eqn:?
  end;
  cbn [bind when check_stop call emit raise return_ ret app fst snd].

(** Closing one path: the number of signals of the complete run that
    were emitted, then the origin of the data from the equations the case
    analysis left. *)
Ltac origin :=
  unfold recognized, corrected_from, explained, uses_model;
  repeat match goal with
         | H : (_ && _) = true |- _ => apply andb_true_iff in H; destruct H
         end;
  eauto 12.

Ltac shape_facts :=
  repeat split;
  try lia; try (intros; lia); try (intros _);
  try solve [ eauto | origin
            | match goal with
              | H : ?f ?n = true |- exists _, ?f _ = true => exists n; exact H
              end ].

Ltac shape k raw corrected :=
  exists raw, corrected, k; split; [reflexivity | shape_facts].

Ltac ocr_shape :=
  lazymatch goal with
  | |- exists _ _ _, [] = _ /\ _ => shape 0%nat (@nil N) (@nil N)
  | |- exists _ _ _, [_] = _ /\ _ => shape 1%nat (@nil N) (@nil N)
  | |- exists _ _ _, [_; _] = _ /\ _ => shape 2%nat (@nil N) (@nil N)
  | |- exists _ _ _, [_; _; finished] = _ /\ _ => shape 2%nat (@nil N) (@nil N)
  | |- exists _ _ _, [_; _; result _ ?raw; _; finished] = _ /\ _ =>
    shape 4%nat raw (@nil N)
  | |- exists _ _ _, [_; _; result _ ?raw; _; _] = _ /\ _ =>
    shape 5%nat raw (@nil N)
  | |- exists _ _ _, [_; _; result _ ?raw; _; _; finished] = _ /\ _ =>
    shape 5%nat raw (@nil N)
  | |- exists _ _ _, [_; _; result _ ?raw; _; _; result _ ?c; _] = _ /\ _ =>
    shape 7%nat raw c
  end.

Lemma run_try_ocr_correct G W is_set self :
  task_type self = lit "ocr_correct" ->
  exists raw corrected k,
    fst (run_try G W is_set self)
    = take k (ocr_signals (task_type self) raw corrected)
      ++ match snd (run_try G W is_set self) with Returned => [finished] | _ => [] end
    /\ match snd (run_try G W is_set self) with
       | Normal _ =>
         k = 7%nat /\ recognized W self raw /\ corrected_from W self raw corrected
         /\ is_set 0%nat = false /\ is_set 1%nat = false /\ is_set 2%nat = false
       | Returned =>
         (k = 2 \/ k = 4 \/ k = 5)%nat /\ (3 <= k -> recognized W self raw)%nat
         /\ exists n, is_set n = true
       | Raised _ =>
         (k = 0 \/ k = 1 \/ k = 2 \/ k = 5)%nat /\ (3 <= k -> recognized W self raw)%nat
       end.
Proof.
  intros HT. unfold run_try. rewrite HT, str_eqb_refl. rewrite <- HT.
  repeat run_step.
  all: ocr_shape.
Qed.

Ltac explain_shape :=
  lazymatch goal with
  | |- exists _ _, [] = _ /\ _ => exists (@nil N), 0%nat
  | |- exists _ _, [_] = _ /\ _ => exists (@nil N), 1%nat
  | |- exists _ _, [_; finished] = _ /\ _ => exists (@nil N), 1%nat
  | |- exists _ _, [_; result _ ?e; _] = _ /\ _ => exists e, 3%nat
  end;
  (split; [reflexivity | shape_facts]).

Lemma run_try_explain G W is_set self :
  task_type self = lit "explain" ->
  exists explanation k,
    fst (run_try G W is_set self)
    = take k (explain_signals (task_type self) explanation)
      ++ match snd (run_try G W is_set self) with Returned => [finished] | _ => [] end
    /\ match snd (run_try G W is_set self) with
       | Normal _ => k = 3%nat /\ explained W self explanation /\ is_set 0%nat = false
       | Returned => k = 1%nat /\ is_set 0%nat = true
       | Raised _ => (k = 0 \/ k = 1)%nat
       end.
Proof.
  intros HT. unfold run_try. rewrite HT.
  change (str_eqb (lit "explain") (lit "ocr_correct")) with false.
  rewrite str_eqb_refl. cbv iota. rewrite <- HT.
  repeat run_step.
  all: explain_shape.
Qed.

Lemma run_try_other G W is_set self :
  task_type self <> lit "ocr_correct" -> task_type self <> lit "explain" ->
  run_try G W is_set self = ([], Normal tt).
Proof.
  intros H1 H2. unfold run_try.
  destruct (str_eqb (task_type self) (lit "ocr_correct")) eqn:E1;
    [apply str_eqb_eq in E1; contradiction|].
  destruct (str_eqb (task_type self) (lit "explain")) eqn:E2;
    [apply str_eqb_eq in E2; contradiction|].
  reflexivity.
Qed.

(** The three kinds of task type. *)
Lemma task_type_cases (self : OCRLLMWorker) :
  task_type self = lit "ocr_correct"
  \/ task_type self = lit "explain"
  \/ (task_type self <> lit "ocr_correct" /\ task_type self <> lit "explain").
Proof.
  destruct (decide (task_type self = lit "ocr_correct")); [by left|].
  destruct (decide (task_type self = lit "explain")); [by right; left|].
  by right; right.
Qed.

(** A run of the recognise-and-correct task: the first [k] signals of the
    complete sequence, then one of the three endings. *)
Lemma run_ocr_correct G W is_set self :
  task_type self = lit "ocr_correct" ->
  exists raw corrected k e,
    run G W is_set self
    = take k (ocr_signals (task_type self) raw corrected) ++ ending_signals e
    /\ match e with
       | completed =>
         k = 7%nat /\ succeeded G W is_set self
         /\ recognized W self raw /\ corrected_from W self raw corrected
       | stopped =>
         (k = 2 \/ k = 4 \/ k = 5)%nat /\ ~ succeeded G W is_set self
         /\ (3 <= k -> recognized W self raw)%nat /\ exists n, is_set n = true
       | failed _ =>
         (k = 0 \/ k = 1 \/ k = 2 \/ k = 5)%nat /\ ~ succeeded G W is_set self
         /\ (3 <= k -> recognized W self raw)%nat
       end.
Proof.
  intros HT. destruct (run_try_ocr_correct G W is_set self HT)
    as (raw & corrected & k & Hfst & Hsnd).
  exists raw, corrected, k. rewrite run_of_try, Hfst. unfold succeeded.
  destruct (snd (run_try G W is_set self)) as [[]| |e].
  - exists completed. rewrite app_nil_r. intuition.
  - exists stopped. rewrite <- app_assoc. intuition discriminate.
  - exists (failed (error_msg W self e)). rewrite app_nil_r. intuition discriminate.
Qed.

(** A run of the explanation task, likewise. *)
Lemma run_explain G W is_set self :
  task_type self = lit "explain" ->
  exists explanation k e,
    run G W is_set self
    = take k (explain_signals (task_type self) explanation) ++ ending_signals e
    /\ match e with
       | completed =>
         k = 3%nat /\ succeeded G W is_set self /\ explained W self explanation
       | stopped =>
         k = 1%nat /\ ~ succeeded G W is_set self /\ is_set 0%nat = true
       | failed _ => (k = 0 \/ k = 1)%nat /\ ~ succeeded G W is_set self
       end.
Proof.
  intros HT. destruct (run_try_explain G W is_set self HT)
    as (explanation & k & Hfst & Hsnd).
  exists explanation, k. rewrite run_of_try, Hfst. unfold succeeded.
  destruct (snd (run_try G W is_set self)) as [[]| |e].
  - exists completed. rewrite app_nil_r. intuition.
  - exists stopped. rewrite <- app_assoc. intuition discriminate.
  - exists (failed (error_msg W self e)). rewrite app_nil_r. intuition discriminate.
Qed.

(** Any other task type: nothing but [finished]. *)
Lemma run_other G W is_set self :
  task_type self <> lit "ocr_correct" -> task_type self <> lit "explain" ->
  run G W is_set self = [finished].
Proof.
  intros H1 H2. rewrite run_of_try, run_try_other by done. reflexivity.
Qed.

(** The kinds of result are distinct strings. *)
Lemma ocr_result_not_corrected : lit "ocr_result" <> lit "corrected_text_result".
Proof. vm_compute. discriminate. Qed.

Lemma ocr_result_not_explanation : lit "ocr_result" <> lit "explanation_result".
Proof. vm_compute. discriminate. Qed.

Lemma corrected_not_explanation :
  lit "corrected_text_result" <> lit "explanation_result".
Proof. vm_compute. discriminate. Qed.

(** All runs, one concrete list of signals at a time: for each goal, an
    equation [Hrun] that gives the run and the facts of its shape. *)
Ltac run_cases G W is_set self Hrun :=
  let HT := fresh "HT" in
  let Hshape := fresh "Hshape" in
  destruct (task_type_cases self) as [HT|[HT|[HT HT']]];
  [ destruct (run_ocr_correct G W is_set self HT)
      as (?raw & ?corrected & ?k & [| |?msg] & Hrun & Hshape);
    [ destruct Hshape as (-> & ? & ? & ?)
    | destruct Hshape as ([-> | [-> | ->]] & ? & ? & ?)
    | destruct Hshape as ([-> | [-> | [-> | ->]]] & ? & ?) ]
  | destruct (run_explain G W is_set self HT)
      as (?explanation & ?k & [| |?msg] & Hrun & Hshape);
    [ destruct Hshape as (-> & ? & ?)
    | destruct Hshape as (-> & ? & ?)
    | destruct Hshape as ([-> | ->] & ?) ]
  | pose proof (run_other G W is_set self HT HT') as Hrun ];
  cbn [take ocr_signals explain_signals ending_signals app] in Hrun.

Ltac body_and_finished :=
  match goal with
  | |- exists body, ?l = _ => exists (removelast l); reflexivity
  end.

(** [finished] is the last signal of every run, and it occurs once, or
    twice when a [check_stop] returned. *)
Lemma run_finished G W is_set self :
  (exists body, run G W is_set self = body ++ [finished])
  /\ (finished_count (run G W is_set self) = 1%nat
      \/ (finished_count (run G W is_set self) = 2%nat
          /\ exists n, is_set n = true)).
Proof.
  run_cases G W is_set self Hrun; rewrite Hrun;
    (split; [body_and_finished|]);
    try (left; reflexivity); right; (split; [reflexivity | eauto]).
Qed.

(** As long as the stop event is not set, [finished] occurs exactly once:
    a run is some signals other than [finished], then [finished]. *)
Lemma run_never_set G W self :
  exists body, run G W never_set self = body ++ [finished] /\ finished ∉ body.
Proof.
  run_cases G W never_set self Hrun;
    try match goal with H : exists _, never_set _ = true |- _ =>
          destruct H as [? H]; discriminate H end;
    try match goal with H : never_set _ = true |- _ => discriminate H end.
  all: rewrite Hrun.
  all: match goal with
       | |- exists body, ?l = _ /\ _ => exists (removelast l)
       end; split; [reflexivity|]; cbn [removelast].
  all: rewrite list_elem_of_In; cbn [In]; intuition discriminate.
Qed.

(** ** Properties of the worker *)

Lemma ocr_correct_not_explain : lit "ocr_correct" <> lit "explain".
Proof. vm_compute. discriminate. Qed.

(** C3, on the input where it fails: with the stop event set before the
    first check, the run of the recognise-and-correct task emits
    [finished] twice, once before the [return] and once more in the
    [finally] clause. *)
Theorem finished_twice_when_stopped :
  run all_libs demo_world always_set demo_worker
  = [ progress (lit "ocr_correct") 5; progress (lit "ocr_correct") 10;
      finished; finished ]
  /\ finished_count (run all_libs demo_world always_set demo_worker) = 2%nat.
Proof. split; vm_compute; reflexivity. Qed.






Lemma raw_precedes_corrected_split (sigs : list Signal) :
  forall seen_raw before d after,
    raw_precedes_corrected seen_raw sigs = true ->
    sigs = before ++ result (lit "corrected_text_result") d :: after ->
    seen_raw = true \/ exists raw, result (lit "ocr_result") raw ∈ before.
Proof.
  induction sigs as [|s sigs IH]; intros seen_raw before d after Hok Heq.
  - by destruct before.
  - destruct before as [|s' before]; cbn [app] in Heq.
    + injection Heq as -> ->. cbn [raw_precedes_corrected] in Hok.
      rewrite str_eqb_refl in Hok. apply andb_true_iff in Hok as [-> _]. by left.
    + injection Heq as <- ->.
      assert (Hrest : forall b, raw_precedes_corrected b
                (before ++ result (lit "corrected_text_result") d :: after) = true ->
              b = true \/ exists raw, result (lit "ocr_result") raw ∈ s :: before).
      { intros b Hb. destruct (IH b before d after Hb eq_refl) as [?|[raw ?]];
          [by left|]. right. exists raw. apply elem_of_cons. by right. }
      destruct s as [|msg|kind data|T p]; cbn [raw_precedes_corrected] in Hok;
        try (by apply Hrest).
      destruct (str_eqb kind (lit "corrected_text_result")) eqn:Ec.
      { apply andb_true_iff in Hok as [-> _]. by left. }
      destruct (str_eqb kind (lit "ocr_result")) eqn:Er; [|by apply Hrest].
      apply str_eqb_eq in Er as ->. right. exists data. apply elem_of_cons. by left.
Qed.

Lemma run_raw_precedes_corrected G W is_set self :
  raw_precedes_corrected false (run G W is_set self) = true.
Proof.
  run_cases G W is_set self Hrun; rewrite Hrun; vm_compute; reflexivity.
Qed.

(** C6: a [corrected_text_result] is emitted only after an [ocr_result] of
    the same run. *)
Theorem corrected_after_raw G W is_set self before d after :
  run G W is_set self = before ++ result (lit "corrected_text_result") d :: after ->
  exists raw, result (lit "ocr_result") raw ∈ before.
Proof.
  intros Hsplit.
  destruct (raw_precedes_corrected_split _ false before d after
              (run_raw_precedes_corrected G W is_set self) Hsplit) as [?|?];
    [discriminate | assumption].
Qed.

Lemma corrected_after_raw_witness :
  exists raw,
    result (lit "ocr_result") raw
    ∈ [ progress (lit "ocr_correct") 5; progress (lit "ocr_correct") 10;
        result (lit "ocr_result") (lit "Hello wrold");
        progress (lit "ocr_correct") 50; progress (lit "ocr_correct") 55 ].
Proof.
  apply (corrected_after_raw all_libs demo_world never_set demo_worker _
           (lit "Hello world.")
           [progress (lit "ocr_correct") 100; finished]).
  reflexivity.
Defined.

(** [strip] removes blanks at both ends and nothing else. *)
Lemma lstrip_spec (s : str) :
  exists blanks, s = blanks ++ lstrip s /\ Forall (fun c => isspace c = true) blanks
    /\ (forall c rest, lstrip s = c :: rest -> isspace c = false).
Proof.
  induction s as [|c s (blanks & Heq & Hall & Hhead)]; cbn [lstrip].
  - exists []. repeat split; [constructor | discriminate].
  - destruct (isspace c) eqn:Hc.
    + exists (c :: blanks). cbn [app]. rewrite <- Heq. repeat split; [by constructor | done].
    + exists []. repeat split; [constructor|]. by intros c' rest [= <- _].
Qed.

Lemma strip_spec (s : str) :
  exists left right,
    s = left ++ strip s ++ right
    /\ Forall (fun c => isspace c = true) left
    /\ Forall (fun c => isspace c = true) right
    /\ (forall c rest, strip s = c :: rest -> isspace c = false)
    /\ (forall c rest, strip s = rest ++ [c] -> isspace c = false).
Proof.
  destruct (lstrip_spec s) as (left & Hs & Hleft & Hhead).
  destruct (lstrip_spec (rev (lstrip s))) as (right & Hr & Hright & Hlast).
  exists left, (rev right). unfold strip, rstrip.
  assert (Hmid : lstrip s = rev (lstrip (rev (lstrip s))) ++ rev right).
  { rewrite <- rev_app_distr, <- Hr. by rewrite rev_involutive. }
  repeat split.
  - by rewrite <- Hmid.
  - done.
  - rewrite Forall_forall in *. intros c Hc. apply Hright. by apply in_rev.
  - intros c rest Hc.
    destruct (lstrip s) as [|c0 rest0] eqn:El.
    { cbn in Hc. discriminate. }
    rewrite Hc in Hmid. cbn [app] in Hmid. injection Hmid as -> _.
    by eapply Hhead.
  - intros c rest Hc. apply (Hlast c (rev rest)).
    apply (f_equal (@rev N)) in Hc.
    by rewrite rev_involutive, rev_app_distr in Hc.
Qed.

(** [join]: the items in their order, the separator between neighbours. *)
Lemma join_cons (sep x : str) (items : list str) :
  join sep (x :: items) = x ++ concat (map (fun y => sep ++ y) items).
Proof.
  revert x. induction items as [|y items IH]; intros x.
  - cbn. by rewrite app_nil_r.
  - change (join sep (x :: y :: items)) with (x ++ sep ++ join sep (y :: items)).
    rewrite IH. cbn [map concat]. by rewrite <- app_assoc.
Qed.

(** Where the data of a [result] signal comes from, in the terms of the
    code: [join] on the recognised fragments, [strip] on the answers. *)
Lemma result_origin G W is_set self kind data :
  result kind data ∈ run G W is_set self ->
  (kind = lit "ocr_result" /\ recognized W self data)
  \/ (kind = lit "corrected_text_result"
      /\ exists raw, recognized W self raw /\ corrected_from W self raw data)
  \/ (kind = lit "explanation_result" /\ explained W self data).
Proof.
  intros Hin. rewrite list_elem_of_In in Hin.
  run_cases G W is_set self Hrun; rewrite Hrun in Hin; cbn [In] in Hin.
  all: repeat match goal with
              | H : _ \/ _ |- _ => destruct H as [H|H]
              | H : False |- _ => destruct H
              | H : _ = result _ _ |- _ => first [discriminate H | injection H as <- <-]
              end.
  all: try (left; split; [reflexivity|]; auto with lia; fail).
  all: try (right; left; split; [reflexivity|]; eauto; fail).
  all: right; right; split; [reflexivity | assumption].
Qed.


(** The embedding of [str.isspace] accepts the whitespace characters and
    no other. *)
Lemma isspace_whitespace (c : N) : isspace c = true <-> whitespace c.
Proof.
  unfold isspace, whitespace.
  rewrite !orb_true_iff, !andb_true_iff, !N.leb_le, !N.eqb_eq.
  rewrite !elem_of_cons, elem_of_nil. lia.
Qed.

Lemma not_whitespace (c : N) : ~ whitespace c -> isspace c = false.
Proof.
  intros Hc. destruct (isspace c) eqn:E; [|done].
  by apply isspace_whitespace in E.
Qed.

Lemma lstrip_whitespace (blanks s : str) :
  Forall whitespace blanks -> lstrip (blanks ++ s) = lstrip s.
Proof.
  induction 1 as [|c blanks Hc _ IH]; [done|].
  cbn [app lstrip]. apply isspace_whitespace in Hc. by rewrite Hc.
Qed.

Lemma lstrip_head (c : N) (rest : str) :
  ~ whitespace c -> lstrip (c :: rest) = c :: rest.
Proof. intros Hc. cbn [lstrip]. by rewrite (not_whitespace c Hc). Qed.

(** [strip] yields the stripped form, and nothing else is one. *)
Lemma stripped_strip (output data : str) :
  stripped output data <-> data = strip output.
Proof.
  split.
  - intros (leading & trailing & -> & Hl & Ht & Hfirst & Hlast).
    unfold strip, rstrip. rewrite lstrip_whitespace by done.
    destruct data as [|c rest].
    + cbn [app]. rewrite <- (app_nil_r trailing).
      rewrite lstrip_whitespace by done. reflexivity.
    + rewrite <- app_comm_cons, (lstrip_head c) by by eapply Hfirst.
      rewrite app_comm_cons, rev_app_distr.
      rewrite lstrip_whitespace by by apply Forall_rev.
      destruct (rev (c :: rest)) as [|c' rest'] eqn:Hrev.
      { apply (f_equal (@length N)) in Hrev. rewrite length_rev in Hrev. done. }
      rewrite lstrip_head.
      * by rewrite <- Hrev, rev_involutive.
      * apply (Hlast c' (rev rest')).
        apply (f_equal (@rev N)) in Hrev. by rewrite rev_involutive in Hrev.
  - intros ->.
    destruct (strip_spec output)
      as (leading & trailing & Hs & Hl & Ht & Hfirst & Hlast).
    exists leading, trailing. split; [exact Hs|].
    split; [by rewrite Forall_forall in *; intros c Hc%Hl%isspace_whitespace|].
    split; [by rewrite Forall_forall in *; intros c Hc%Ht%isspace_whitespace|].
    split.
    + intros c rest Hc Hw%isspace_whitespace. by rewrite (Hfirst c rest Hc) in Hw.
    + intros c rest Hc Hw%isspace_whitespace. by rewrite (Hlast c rest Hc) in Hw.
Qed.

(** ["\n".join] yields the fragments joined with newline characters. *)
Lemma join_newline (fragments : list str) :
  join nl fragments = newline_joined fragments.
Proof. destruct fragments as [|first others]; [done|]. by rewrite join_cons. Qed.

(** C9: the data of every [result] signal of a run is normalised.  That of
    an [ocr_result] is the fragments the recognition engine returned for
    the image, in their order, with one newline character U+000A between
    neighbours.  That of a [corrected_text_result] is the answer of the
    generation engine to the correction prompt on that text, and that of an
    [explanation_result] its answer to the explanation prompt on the text
    input, each without its leading and trailing whitespace. *)
Theorem result_data G W is_set self kind data :
  result kind data ∈ run G W is_set self ->
  (kind = lit "ocr_result"
   /\ exists fragments,
        reads W self fragments /\ data = newline_joined fragments)
  \/ (kind = lit "corrected_text_result"
      /\ exists fragments output,
           reads W self fragments
           /\ answers W self
                (prompt_template_correction (newline_joined fragments))
                (len (newline_joined fragments) * 2 + 300) 0.6%Q 40 0.9%Q output
           /\ stripped output data)
  \/ (kind = lit "explanation_result"
      /\ exists text output,
           text_input self = Some text
           /\ answers W self (prompt_template_explanation text)
                (len text + 500) 0.7%Q 50 0.95%Q output
           /\ stripped output data).
Proof.
  intros Hin.
  destruct (result_origin _ _ _ _ _ _ Hin)
    as [[-> Hraw]|[[-> (raw & Hraw & Hcorrected)]|[-> Hexplained]]].
  - left. split; [reflexivity|].
    destruct Hraw as (r & path & fragments & Hpath & Hreader & Hread & ->).
    exists fragments. split; [by exists r, path|]. apply join_newline.
  - right. left. split; [reflexivity|].
    destruct Hraw as (r & path & fragments & Hpath & Hreader & Hread & ->).
    destruct Hcorrected as (m & output & Hmodel & Hgenerate & ->).
    exists fragments, output. rewrite join_newline in Hgenerate.
    split; [by exists r, path|]. split; [by exists m|]. by apply stripped_strip.
  - right. right. split; [reflexivity|].
    destruct Hexplained as (m & text & output & Htext & Hmodel & Hgenerate & ->).
    exists text, output. split; [exact Htext|]. split; [by exists m|].
    by apply stripped_strip.
Qed.

Lemma result_data_witness :
  exists fragments output,
    reads two_line_world demo_worker fragments
    /\ newline_joined fragments = lit "Hello" ++ [10%N] ++ lit "wrold"
    /\ answers two_line_world demo_worker
         (prompt_template_correction (newline_joined fragments))
         (len (newline_joined fragments) * 2 + 300) 0.6%Q 40 0.9%Q output
    /\ output = [32; 9]%N ++ lit "Hello world." ++ [32; 13; 10]%N
    /\ stripped output (lit "Hello world.").
Proof.
  destruct (result_data all_libs two_line_world never_set demo_worker
              (lit "corrected_text_result") (lit "Hello world."))
    as [[Hkind _]|[[_ (fragments & output & Hreads & Hanswers & Hstripped)]|[Hkind _]]].
  - vm_compute. do 5 right. left.
  - vm_compute in Hkind. discriminate Hkind.
  - exists fragments, output.
    assert (Hfragments : fragments = [lit "Hello"; lit "wrold"]).
    { destruct Hreads as (r & path & _ & _ & Hread).
      by injection Hread as <-. }
    assert (Houtput : output = [32; 9]%N ++ lit "Hello world." ++ [32; 13; 10]%N).
    { destruct Hanswers as (m & _ & Hgenerate).
      by injection Hgenerate as <-. }
    repeat split; try assumption. rewrite Hfragments. reflexivity.
  - vm_compute in Hkind. discriminate Hkind.
Defined.

(** ** Properties of the main window *)

(** The attributes of a window, one variable each. *)
Ltac attributes self :=
  destruct self as [image raw corrected accepted name ocr llm pool slot_
                    event_ events bar status analyze cancel select dialogs].

(** Reading an attribute after a sequence of assignments. *)
Ltac window :=
  cbv beta iota zeta delta
  [
    current_image_path raw_ocr_text current_corrected_text
    final_accepted_text_for_explanation llm_model_name ocr_reader_instance
    llm_model_instance threadpool current_worker_runnable
    stop_current_worker_event stop_events progress_bar status_label
    analyze_button cancel_task_button select_image_button open_dialogs
    set_current_image_path set_raw_ocr_text set_current_corrected_text
    set_final_accepted_text_for_explanation set_threadpool
    set_current_worker_runnable set_stop_current_worker_event
    set_stop_events set_progress_bar set_status_label set_analyze_button
    set_cancel_task_button set_select_image_button set_open_dialogs
    update_status_message set_buttons_for_task_running_state
    reset_ui_after_task open_dialog pop_dialog handle_worker_progress
    list.tail fst snd ].


(** C4 as stated fails for an unreadable image: with the path of a file
    that does not exist loaded, [run_ocr_correction_task] hands a worker to
    the pool, and that worker emits [progress 5], an [error] and
    [finished]. *)
Lemma unreadable_image_reaches_the_worker :
  let self := load_image_and_prepare_analysis (lit "missing.png")
                (MainWindow_init all_libs demo_world) in
  let started := run_ocr_correction_task all_libs self in
  os_path_exists demo_world (lit "missing.png") = false
  /\ exists worker,
       threadpool started = [worker]
       /\ current_worker_runnable started = Some 0%nat
       /\ image_path worker = Some (lit "missing.png")
       /\ run all_libs demo_world never_set worker
          = [ progress (lit "ocr_correct") 5;
              error (error_msg demo_world worker
                       (ValueError (lit "OCR을 위한 이미지 경로가 유효하지 않습니다.")));
              finished ].
Proof.
  split; [reflexivity|].
  exists (mkWorker (lit "ocr_correct") (Some (lit "missing.png")) None
            (lit "Meta-Llama-3-8B-Instruct.Q4_0.gguf") 0 (Some 0%nat) (Some 0%nat)).
  repeat split; vm_compute; reflexivity.
Qed.

(** C4, amended: a start without an image path, or with an empty text,
    fails in the start itself: only the status message changes, so no
    worker is handed to the pool and no signal is emitted.  An unreadable
    image is found by the worker, which emits [progress 5], then an
    [error], then [finished]. *)
Theorem invalid_input G self :
  (truthy_opt (current_image_path self) = false ->
     run_ocr_correction_task G self
     = update_status_message (lit "오류: 분석할 이미지가 선택되지 않았습니다.") self)
  /\ (forall text, truthy text = false ->
        run_explanation_task G text self
        = update_status_message (lit "오류: 해설할 텍스트가 없습니다.") self)
  /\ (forall W is_set worker,
        task_type worker = lit "ocr_correct" ->
        easyocr G = true -> GPT4All G = true -> cv2 G = true ->
        unreadable W (image_path worker) ->
        exists error_message,
          run G W is_set worker
          = [ progress (task_type worker) 5; error error_message; finished ]).
Proof.
  repeat split.
  - intros H. unfold run_ocr_correction_task. by rewrite H.
  - intros text H. unfold run_explanation_task. by rewrite H.
  - intros W is_set worker HT He Hg Hc Hbad.
    unfold run, run_stmt, run_try. rewrite HT, str_eqb_refl, He, Hg, Hc. rewrite <- HT.
    unfold unreadable in Hbad.
    destruct (image_path worker) as [p|];
      [destruct (truthy p) eqn:Ht;
       [destruct (os_path_exists W p) eqn:Hx;
        [destruct (cv2_imread W p) eqn:Hi;
         [destruct Hbad as [?|[?|?]]; discriminate|]|]|]|].
    all: cbn [negb andb when bind ret emit raise app fst snd try_except try_finally].
    all: rewrite ?Hi.
    all: cbn [negb andb when bind ret emit raise app fst snd try_except try_finally].
    all: eexists; reflexivity.
Qed.

Lemma invalid_input_witness :
  run_ocr_correction_task all_libs (MainWindow_init all_libs demo_world)
  = update_status_message (lit "오류: 분석할 이미지가 선택되지 않았습니다.")
      (MainWindow_init all_libs demo_world)
  /\ run_explanation_task all_libs [] busy_window
     = update_status_message (lit "오류: 해설할 텍스트가 없습니다.") busy_window
  /\ exists error_message,
       run all_libs demo_world never_set
         (mkWorker (lit "ocr_correct") (Some (lit "missing.png")) None
            (lit "Meta-Llama-3-8B-Instruct.Q4_0.gguf") 0 (Some 0%nat) (Some 0%nat))
       = [ progress (lit "ocr_correct") 5; error error_message; finished ].
Proof.
  pose proof (invalid_input all_libs (MainWindow_init all_libs demo_world))
    as (Himage & _ & _).
  pose proof (invalid_input all_libs busy_window) as (_ & Htext & Hworker).
  split; [apply Himage; reflexivity|].
  split; [apply Htext; reflexivity|].
  apply (Hworker demo_world never_set
           (mkWorker (lit "ocr_correct") (Some (lit "missing.png")) None
              (lit "Meta-Llama-3-8B-Instruct.Q4_0.gguf") 0 (Some 0%nat) (Some 0%nat)));
    try reflexivity.
  right. left. reflexivity.
Defined.

Lemma lstrip_blank (s : str) :
  Forall (fun c => isspace c = true) s -> lstrip s = [].
Proof.
  induction 1 as [|c s Hc _ IH]; cbn [lstrip]; [done|]. by rewrite Hc.
Qed.

Lemma strip_blank (s : str) :
  Forall (fun c => isspace c = true) s -> strip s = [].
Proof. intros H. unfold strip, rstrip. by rewrite (lstrip_blank s H). Qed.

(** C7: when the comparison dialog is resolved with Accept, the text in
    its widget is what the window keeps as the accepted text, and a worker
    started by this decision is an explanation worker whose text input is
    that text; one is started whenever the slot is free, the text is not
    blank and the model is available. *)
Theorem accept_uses_edited_text G self d rest editedText :
  open_dialogs self = comparison_dialog d :: rest ->
  exists self',
    review G (Accept editedText) self = Some self'
    /\ final_accepted_text_for_explanation self' = editedText
    /\ (threadpool self' = threadpool self
        \/ exists worker,
             threadpool self' = threadpool self ++ [worker]
             /\ task_type worker = lit "explain"
             /\ text_input worker = Some editedText
             /\ image_path worker = None)
    /\ (current_worker_runnable self = None ->
        truthy (strip editedText) = true ->
        loaded (llm_model_instance self) || GPT4All G = true ->
        exists worker,
          threadpool self' = threadpool self ++ [worker]
          /\ task_type worker = lit "explain"
          /\ text_input worker = Some editedText
          /\ current_worker_runnable self' = Some (length (threadpool self))).
Proof.
  intros Hopen. unfold review. rewrite Hopen. cbn [exec on_accept].
  eexists. split; [reflexivity|].
  unfold show_comparison_dialog_result, get_accepted_text.
  cbn [Z.eqb Pos.eqb final_refined_text refined_text_edit
       set_final_accepted_text_for_explanation update_status_message
       set_status_label final_accepted_text_for_explanation].
  destruct (truthy editedText) eqn:Ht; cbn [andb].
  2:{ split; [reflexivity|]. split; [by left|].
      intros _ Hs. destruct editedText; discriminate. }
  destruct (truthy (strip editedText)) eqn:Hs.
  2:{ split; [reflexivity|]. split; [by left|]. intros _ ?. discriminate. }
  unfold run_explanation_task. rewrite Ht. cbn [negb].
  destruct (loaded (llm_model_instance _)) eqn:Hl; cbn [negb andb orb].
  - unfold _start_background_worker; cbn.
    destruct (current_worker_runnable self) eqn:Hslot; cbn.
    + split; [reflexivity|]. split; [by left|]. intros ?. discriminate.
    + split; [reflexivity|].
      split; [right|intros _ _ _]; eexists; repeat split; reflexivity.
  - destruct (GPT4All G) eqn:Hg; cbn [negb].
    + unfold _start_background_worker; cbn.
      destruct (current_worker_runnable self) eqn:Hslot; cbn.
      * split; [reflexivity|]. split; [by left|]. intros ?. discriminate.
      * split; [reflexivity|].
        split; [right|intros _ _ _]; eexists; repeat split; reflexivity.
    + split; [reflexivity|]. split; [by left|].
      intros _ _ Hor. discriminate Hor.
Qed.

Lemma accept_uses_edited_text_witness :
  current_corrected_text review_window = lit "Hello wrold."
  /\ exists self',
       review all_libs (Accept (lit "Hello world.")) review_window = Some self'
       /\ exists worker,
            threadpool self' = threadpool review_window ++ [worker]
            /\ task_type worker = lit "explain"
            /\ text_input worker = Some (lit "Hello world.")
            /\ current_worker_runnable self' = Some (length (threadpool review_window)).
Proof.
  split; [reflexivity|].
  destruct (accept_uses_edited_text all_libs review_window
              (ComparisonDialog_init (Some (lit "doc.png")) (lit "Hello wrold")
                 (lit "Hello wrold."))
              [] (lit "Hello world.") eq_refl)
    as (self' & Hreview & _ & _ & Hstart).
  exists self'. split; [exact Hreview|].
  apply Hstart; reflexivity.
Defined.

(** C8: when the text accepted in the comparison dialog is empty or only
    blanks, no worker is started: the window shows a warning, and once the
    warning is closed the stored texts are empty, the progress bar is at 0
    and the buttons are those of a window with no task running; the image
    stays loaded and the slot is not touched. *)
Theorem blank_accept_starts_nothing G self d rest editedText :
  open_dialogs self = comparison_dialog d :: rest ->
  Forall (fun c => isspace c = true) editedText ->
  exists warned idle,
    review G (Accept editedText) self = Some warned
    /\ threadpool warned = threadpool self
    /\ current_worker_runnable warned = current_worker_runnable self
    /\ open_dialogs warned
       = message_box Warning (lit "텍스트 없음")
           (lit "해설을 위한 텍스트가 없습니다. 다시 시도해주세요.")
           in_show_comparison_dialog :: rest
    /\ close_dialog warned = Some idle
    /\ threadpool idle = threadpool self
    /\ current_worker_runnable idle = current_worker_runnable self
    /\ stop_events idle = stop_events self
    /\ raw_ocr_text idle = []
    /\ current_corrected_text idle = []
    /\ final_accepted_text_for_explanation idle = []
    /\ progress_bar idle = 0%Z
    /\ open_dialogs idle = rest
    /\ current_image_path idle = current_image_path self
    /\ select_image_button idle = true
    /\ analyze_button idle = truthy_opt (current_image_path self).
Proof.
  intros Hopen Hblank. attributes self. cbn [open_dialogs] in Hopen. subst.
  unfold review. cbn [open_dialogs exec on_accept].
  unfold show_comparison_dialog_result, get_accepted_text.
  cbn [Z.eqb Pos.eqb final_refined_text refined_text_edit
       set_final_accepted_text_for_explanation update_status_message
       set_status_label final_accepted_text_for_explanation].
  rewrite (strip_blank editedText Hblank).
  replace (truthy editedText && truthy []) with false
    by (cbn [truthy]; by rewrite andb_false_r).
  eexists _, _. split; [reflexivity|]. cbn [close_dialog]. window.
  repeat split; reflexivity.
Qed.

Lemma blank_accept_starts_nothing_witness :
  exists warned idle,
    review all_libs (Accept (lit "  ")) review_window = Some warned
    /\ threadpool warned = threadpool review_window
    /\ close_dialog warned = Some idle
    /\ final_accepted_text_for_explanation idle = []
    /\ progress_bar idle = 0%Z.
Proof.
  destruct (blank_accept_starts_nothing all_libs review_window
              (ComparisonDialog_init (Some (lit "doc.png")) (lit "Hello wrold")
                 (lit "Hello wrold."))
              [] (lit "  ") eq_refl)
    as (warned & idle & H1 & H2 & _ & _ & H3 & _ & _ & _ & _ & _ & H4 & H5 & _).
  { repeat constructor. }
  exists warned, idle. repeat split; assumption.
Defined.




(** ** Executions of the window and its workers *)

(** A calm execution is an execution. *)
Lemma calm_step_step G world sys a sys' :
  calm_step G world sys a = Some sys' -> step G world sys a = Some sys'.
Proof. unfold calm_step. by destruct (cancels (win sys) a || reports_error a). Qed.

Lemma calm_steps_steps G world actions :
  forall sys sys',
    calm_steps G world sys actions = Some sys' -> steps G world sys actions = Some sys'.
Proof.
  induction actions as [|a rest IH]; intros sys sys' H; cbn in *; [done|].
  destruct (calm_step G world sys a) as [sys1|] eqn:Ha; [|done].
  rewrite (calm_step_step _ _ _ _ _ Ha). cbn. by apply IH.
Qed.

(** *** The invariant is kept by what the slots do *)

Lemma orderly_view_start pool events dialogs log worker :
  orderly_view pool None events dialogs log ->
  orderly_view (pool ++ [worker]) (Some (length pool)) (events ++ [false]) dialogs log.
Proof.
  intros (Hev & Hlog & Hfin & Hint & Hdlg). repeat split.
  - apply Forall_app. split; [done|]. by repeat constructor.
  - intros w s Hin. rewrite length_app. cbn. specialize (Hlog w s Hin). lia.
  - rewrite length_app. cbn. lia.
  - done.
  - done.
  - done.
Qed.

Lemma orderly_view_open pool slot_ events dialogs log d :
  ~ is_error_box d ->
  orderly_view pool slot_ events dialogs log ->
  orderly_view pool slot_ events (d :: dialogs) log.
Proof.
  intros Hd (Hev & Hlog & Hfin & Hint & Hdlg). repeat split; try done.
  by constructor.
Qed.

Lemma orderly_view_close pool slot_ events dialogs log :
  orderly_view pool slot_ events dialogs log ->
  orderly_view pool slot_ events (tail dialogs) log.
Proof.
  intros (Hev & Hlog & Hfin & Hint & Hdlg). repeat split; try done.
  destruct dialogs; cbn; [constructor | by inversion Hdlg].
Qed.

Lemma not_interleaved_snoc log w s :
  not_interleaved log ->
  (forall w' s', (w', s') ∈ log -> (w' <= w)%nat) ->
  not_interleaved (log ++ [(w, s)]).
Proof.
  intros Hint Hle i j e1 e2 Hij H1 H2.
  destruct (decide (j < length log)%nat) as [Hj|Hj].
  - rewrite lookup_app_l in H1, H2 by lia. eapply (Hint i j); eauto.
  - assert (e2 = (w, s)) as ->.
    { rewrite lookup_app_r in H2 by lia.
      destruct (j - length log)%nat as [|k]; cbn in H2; [congruence|].
      discriminate H2. }
    destruct (decide (i < length log)%nat) as [Hi|Hi].
    + rewrite lookup_app_l in H1 by lia. destruct e1 as [w1 s1].
      apply (Hle w1 s1). by eapply list_elem_of_lookup_2.
    + rewrite lookup_app_r in H1 by lia.
      destruct (i - length log)%nat as [|k]; cbn in H1.
      * injection H1 as <-. done.
      * discriminate H1.
Qed.

(** A signal of the worker in the slot is observed. *)
Lemma orderly_view_observe pool events dialogs log w s :
  orderly_view pool (Some w) events dialogs log ->
  orderly_view pool (Some w) events dialogs (log ++ [(w, s)]).
Proof.
  intros (Hev & Hlog & [Hlast Hfin] & Hint & Hdlg). repeat split; try done.
  - intros w' s' Hin. apply elem_of_app in Hin as [Hin|Hin]; [by eapply Hlog|].
    apply list_elem_of_singleton in Hin. injection Hin as -> ->. lia.
  - intros w' Hw'. apply elem_of_app. left. by apply Hfin.
  - apply not_interleaved_snoc; [done|]. intros w' s' Hin.
    specialize (Hlog w' s' Hin). lia.
Qed.

(** [finished] of the worker in the slot is observed and the slot is
    emptied. *)
Lemma orderly_view_finished pool events dialogs log w :
  orderly_view pool (Some w) events dialogs log ->
  orderly_view pool None events dialogs (log ++ [(w, finished)]).
Proof.
  intros Hview. pose proof (orderly_view_observe _ _ _ _ w finished Hview)
    as (Hev & Hlog & [Hlast Hfin] & Hint & Hdlg).
  repeat split; try done.
  intros w' Hw'. destruct (decide (w' = w)) as [->|Hne].
  - apply elem_of_app. right. by apply list_elem_of_singleton.
  - apply Hfin. lia.
Qed.

(** *** The methods of the window keep the invariant *)

Ltac no_error_box := cbn; tauto.

(** The invariant after a method that has been reduced to the attributes
    it leaves. *)
Ltac keep_view :=
  cbn;
  first
    [ assumption
    | apply orderly_view_start; assumption
    | apply orderly_view_open; [no_error_box | assumption]
    | match goal with
      | H : orderly_view _ _ _ ?dialogs _ |- orderly_view _ _ _ ?rest _ =>
        change rest with (tail dialogs) at 1
      end; apply orderly_view_close; assumption ].

Section Methods.

Variable G : Globals.
Variable log : list (nat * Signal).

Lemma reset_ui_after_task_view full_reset self :
  view_of log self -> view_of log (reset_ui_after_task full_reset self).
Proof.
  unfold view_of. attributes self. unfold reset_ui_after_task.
  destruct full_reset; intros; keep_view.
Qed.

Lemma start_background_worker_view task_type image_path text_input self :
  view_of log self ->
  view_of log (_start_background_worker task_type image_path text_input self).
Proof.
  unfold view_of. attributes self. unfold _start_background_worker. cbn.
  destruct slot_; intros; keep_view.
Qed.

Lemma run_ocr_correction_task_view self :
  view_of log self -> view_of log (run_ocr_correction_task G self).
Proof.
  intros H. unfold run_ocr_correction_task.
  repeat case_match;
    try (apply start_background_worker_view);
    revert H; unfold view_of; attributes self; intros; keep_view.
Qed.

Lemma run_explanation_task_view text self :
  view_of log self -> view_of log (run_explanation_task G text self).
Proof.
  intros H. unfold run_explanation_task.
  repeat case_match;
    try (apply start_background_worker_view);
    revert H; unfold view_of; attributes self; intros; keep_view.
Qed.

Lemma load_image_view path self :
  snd (cancel_current_worker_if_running self) = false ->
  view_of log self -> view_of log (load_image_and_prepare_analysis path self).
Proof.
  unfold view_of, load_image_and_prepare_analysis, cancel_current_worker_if_running.
  attributes self. cbn. destruct slot_, event_; cbn; intros; try discriminate; keep_view.
Qed.

Lemma cancel_or_reset_view self :
  snd (cancel_current_worker_if_running self) = false ->
  view_of log self -> view_of log (cancel_or_reset_all_processes self).
Proof.
  unfold cancel_or_reset_all_processes, cancel_current_worker_if_running.
  intros Hno H.
  destruct (current_worker_runnable self) eqn:Hslot;
    destruct (stop_current_worker_event self) eqn:Hevent;
    try discriminate; apply reset_ui_after_task_view;
    revert H; unfold view_of; attributes self; intros; keep_view.
Qed.

Lemma handle_worker_result_view task_type data self :
  view_of log self -> view_of log (handle_worker_result task_type data self).
Proof.
  intros H. unfold handle_worker_result, show_comparison_dialog,
    show_explanation_dialog.
  repeat case_match; try apply reset_ui_after_task_view;
    revert H; unfold view_of; attributes self; intros; keep_view.
Qed.

Lemma handle_worker_progress_view task_type value self :
  view_of log self -> view_of log (handle_worker_progress task_type value self).
Proof.
  unfold view_of, handle_worker_progress. attributes self. intros.
  case_match; keep_view.
Qed.

Lemma pop_dialog_view self :
  view_of log self -> view_of log (pop_dialog self).
Proof. unfold view_of. attributes self. cbn. apply orderly_view_close. Qed.

Lemma review_view h self self' :
  review G h self = Some self' -> view_of log self -> view_of log self'.
Proof.
  unfold review. intros Hreview H.
  destruct (open_dialogs self) as [|[d| |] rest] eqn:Hopen; try discriminate.
  apply pop_dialog_view in H.
  destruct (exec d h) as [dialog dialog_result] eqn:Hexec.
  injection Hreview as <-. unfold show_comparison_dialog_result.
  repeat case_match;
    try apply run_ocr_correction_task_view;
    try apply run_explanation_task_view;
    try apply reset_ui_after_task_view;
    revert H; generalize (pop_dialog self); intros popped;
    unfold view_of; attributes popped; intros; keep_view.
Qed.

Lemma close_dialog_view self self' :
  close_dialog self = Some self' -> view_of log self -> view_of log self'.
Proof.
  unfold close_dialog. intros Hclose H.
  assert (Herr : Forall (fun d => ~ is_error_box d) (open_dialogs self))
    by apply H.
  apply pop_dialog_view in H.
  destruct (open_dialogs self) as [|[d| |icon title text []] rest] eqn:Hopen;
    try discriminate; injection Hclose as <-.
  - revert H. generalize (reset_ui_after_task_view true (pop_dialog self)).
    generalize (reset_ui_after_task true (pop_dialog self)). intros reset Hreset H.
    specialize (Hreset H). revert Hreset.
    unfold view_of. attributes reset. intros. keep_view.
  - done.
  - inversion Herr as [|? ? Hhead]. exfalso. apply Hhead. exact I.
  - by apply reset_ui_after_task_view.
Qed.

End Methods.

(** *** Which worker a delivered signal can be of *)

Lemma signals_of_elem w s log : s ∈ signals_of w log <-> (w, s) ∈ log.
Proof.
  unfold signals_of. rewrite list_elem_of_fmap. split.
  - intros ([w' s'] & -> & Hin). apply list_elem_of_filter in Hin as [Hw Hin].
    cbn in Hw. by subst.
  - intros Hin. exists (w, s). split; [done|]. by apply list_elem_of_filter.
Qed.

Lemma may_have_emitted_unset G world self w sigs :
  Forall (fun b => b = false) (stop_events self) ->
  may_have_emitted G world self w sigs = true ->
  exists worker,
    threadpool self !! w = Some worker
    /\ sigs `prefix_of` run G (world w) never_set worker.
Proof.
  intros Hunset. unfold may_have_emitted.
  destruct (threadpool self !! w) as [worker|]; [|discriminate].
  assert (default false (stop_events self !! stop_event worker) = false) as ->.
  { destruct (stop_events self !! stop_event worker) as [b|] eqn:Hb; [|done].
    cbn. rewrite Forall_forall in Hunset. apply Hunset.
    rewrite <- list_elem_of_In. by eapply list_elem_of_lookup_2. }
  cbn [polls existsb]. rewrite orb_false_r. intros Hprefix.
  apply bool_decide_eq_true in Hprefix. by exists worker.
Qed.

(** Nothing follows [finished] in a run that has it once, at its end. *)
Lemma nothing_after_finished (body l : list Signal) (s : Signal) :
  finished ∉ body -> l ++ [s] `prefix_of` body ++ [finished] -> finished ∉ l.
Proof.
  intros Hbody [k Hk] Hin.
  apply list_elem_of_split in Hin as (l1 & l2 & ->).
  assert (Hlen : length (body ++ [finished])
                 = length (((l1 ++ finished :: l2) ++ [s]) ++ k)) by by rewrite Hk.
  repeat (rewrite length_app in Hlen || cbn [length] in Hlen).
  assert (Hat : (body ++ [finished]) !! length l1 = Some finished).
  { rewrite Hk. rewrite <- !app_assoc. rewrite lookup_app_r by lia.
    by rewrite Nat.sub_diag. }
  rewrite lookup_app_l in Hat by lia.
  apply Hbody. by eapply list_elem_of_lookup_2.
Qed.

(** In an orderly state, a signal can only come from the worker in the
    slot. *)
Lemma deliver_from_slot G world sys w sig :
  orderly sys ->
  may_have_emitted G world (win sys) w (signals_of w (observed sys) ++ [sig]) = true ->
  current_worker_runnable (win sys) = Some w.
Proof.
  intros (Hunset & Hlog & Hslot & _ & _) Hmay.
  destruct (may_have_emitted_unset _ _ _ _ _ Hunset Hmay) as (worker & Hworker & Hprefix).
  destruct (run_never_set G (world w) worker) as (body & Hrun & Hbody).
  rewrite Hrun in Hprefix.
  pose proof (nothing_after_finished _ _ _ Hbody Hprefix) as Hnot.
  rewrite signals_of_elem in Hnot.
  apply lookup_lt_Some in Hworker.
  destruct (current_worker_runnable (win sys)) as [i|].
  - destruct Hslot as [Hlast Hfin]. destruct (decide (w = i)) as [->|Hne]; [done|].
    exfalso. apply Hnot, Hfin. lia.
  - exfalso. by apply Hnot, Hslot.
Qed.

Lemma handle_worker_finished_view log w self :
  current_worker_runnable self = Some w ->
  view_of log self ->
  view_of (log ++ [(w, finished)]) (handle_worker_finished self).
Proof.
  unfold view_of, handle_worker_finished. attributes self. cbn.
  intros -> H. apply orderly_view_finished in H.
  repeat case_match; exact H.
Qed.

(** *** Every calm step keeps the invariant *)

Lemma calm_step_orderly G world sys a sys' :
  orderly sys -> calm_step G world sys a = Some sys' -> orderly sys'.
Proof.
  intros Hsys. unfold calm_step, orderly in *. destruct sys as [self log].
  cbn [win observed] in *.
  destruct a as [file_path| | |w sig|h|]; cbn [cancels reports_error step win observed].
  - destruct (snd (cancel_current_worker_if_running self)) eqn:Hcancel; [done|].
    cbn [orb]. case_match; [|done]. intros [= <-]. cbn. by apply load_image_view.
  - cbn [orb]. case_match; [|done]. intros [= <-]. cbn.
    by apply run_ocr_correction_task_view.
  - destruct (snd (cancel_current_worker_if_running self)) eqn:Hcancel; [done|].
    cbn [orb]. case_match; [|done]. intros [= <-]. cbn. by apply cancel_or_reset_view.
  - destruct (may_have_emitted G world self w (signals_of w log ++ [sig])) eqn:Hmay.
    2:{ by destruct sig. }
    pose proof (deliver_from_slot G world (mkSystem self log) w sig Hsys Hmay) as Hslot.
    cbn in Hslot.
    assert (Hseen : view_of (log ++ [(w, sig)]) self).
    { unfold view_of in *. rewrite Hslot in *. by apply orderly_view_observe. }
    destruct sig as [|msg|kind data|T p]; cbn; try done; intros [= <-]; cbn.
    + by apply handle_worker_finished_view.
    + by apply handle_worker_result_view.
    + by apply handle_worker_progress_view.
  - cbn [orb]. destruct (review G h self) as [self1|] eqn:Hreview; [|done].
    intros [= <-]. cbn. by eapply review_view.
  - cbn [orb]. destruct (close_dialog self) as [self1|] eqn:Hclose; [|done].
    intros [= <-]. cbn. by eapply close_dialog_view.
Qed.

Lemma calm_steps_orderly G world actions :
  forall sys sys',
    orderly sys -> calm_steps G world sys actions = Some sys' -> orderly sys'.
Proof.
  induction actions as [|a rest IH]; intros sys sys' Hsys H; cbn in H.
  - by injection H as <-.
  - destruct (calm_step G world sys a) as [sys1|] eqn:Ha; [|done].
    eapply IH; [|exact H]. by eapply calm_step_orderly.
Qed.

Lemma initial_orderly G W : orderly (initial G W).
Proof.
  repeat split; cbn; try done.
  - intros w s Hin. by apply elem_of_nil in Hin.
  - intros w Hw. lia.
Qed.

(** A worker is handed to the pool only when the slot is empty. *)
Lemma start_needs_free_slot task_type image_path text_input self :
  threadpool (_start_background_worker task_type image_path text_input self)
  = threadpool self
  \/ current_worker_runnable self = None.
Proof.
  unfold _start_background_worker. destruct (current_worker_runnable self);
    [by left | by right].
Qed.

Ltac same_pool := left; attributes_of_goal; reflexivity
with attributes_of_goal :=
  repeat match goal with
         | self : MainWindow |- _ => attributes self
         end; cbn.

Ltac via_start self :=
  match goal with
  | |- threadpool (_start_background_worker ?t ?i ?x ?s) = _ \/ _ =>
    let Hsame := fresh "Hsame" in
    let Hfree := fresh "Hfree" in
    destruct (start_needs_free_slot t i x s) as [Hsame|Hfree];
    [ left; rewrite Hsame; attributes self; reflexivity
    | right; revert Hfree; attributes self; cbn; done ]
  end.

Lemma step_needs_free_slot G world sys a sys' :
  step G world sys a = Some sys' ->
  threadpool (win sys') = threadpool (win sys)
  \/ current_worker_runnable (win sys) = None.
Proof.
  destruct sys as [self log]. cbn [win].
  destruct a as [file_path| | |w sig|h|]; cbn [step win observed].
  - case_match; [|done]. intros [= <-]. cbn [win].
    unfold load_image_and_prepare_analysis, cancel_current_worker_if_running.
    attributes self. cbn. destruct slot_, event_; cbn; first [by left | by right].
  - case_match; [|done]. intros [= <-]. cbn [win].
    unfold run_ocr_correction_task.
    repeat case_match; try same_pool.
    via_start self.
  - case_match; [|done]. intros [= <-]. cbn [win].
    unfold cancel_or_reset_all_processes, cancel_current_worker_if_running,
      reset_ui_after_task.
    attributes self. cbn. destruct slot_, event_; cbn; first [by left | by right].
  - case_match; [|done].
    destruct sig as [|msg|kind data|T p]; cbn.
    + intros [= <-]. cbn. unfold handle_worker_finished.
      repeat case_match; same_pool.
    + unfold handle_worker_error. destruct (splitlines_0 msg); [|done].
      cbn. intros [= <-]. same_pool.
    + intros [= <-]. cbn. unfold handle_worker_result, show_comparison_dialog,
        show_explanation_dialog, reset_ui_after_task.
      repeat case_match; same_pool.
    + intros [= <-]. cbn. unfold handle_worker_progress. case_match; same_pool.
  - destruct (review G h self) as [self1|] eqn:Hreview; [|done].
    intros [= <-]. cbn. revert Hreview. unfold review.
    destruct (open_dialogs self) as [|[d| |] rest] eqn:Hopen; try done.
    destruct (exec d h) as [dialog dialog_result]. intros [= <-].
    unfold show_comparison_dialog_result, run_ocr_correction_task,
      run_explanation_task, reset_ui_after_task.
    repeat case_match; try same_pool.
    all: via_start self.
  - destruct (close_dialog self) as [self1|] eqn:Hclose; [|done].
    intros [= <-]. cbn. revert Hclose. unfold close_dialog, handle_worker_error_rest,
      reset_ui_after_task.
    repeat case_match; try done; intros [= <-]; same_pool.
Qed.

(** C2 as stated fails after a cancel: the cancel empties the slot at once,
    so after cancel, image selection and a new start the pool holds two
    workers, the second in the slot, while no signal of the first, its
    [finished] included, has been observed.  The signals of the cancelled
    worker are still delivered, also after signals of the second. *)
Lemma restart_before_finished :
  exists sys sys',
    steps all_libs (fun _ => demo_world) (initial all_libs demo_world)
      cancel_then_restart = Some sys
    /\ length (threadpool (win sys)) = 2%nat
    /\ current_worker_runnable (win sys) = Some 1%nat
    /\ observed sys = []
    /\ steps all_libs (fun _ => demo_world) sys
         [ deliver 1 (progress (lit "ocr_correct") 5);
           deliver 0 (progress (lit "ocr_correct") 5);
           deliver 1 (progress (lit "ocr_correct") 10);
           deliver 0 (progress (lit "ocr_correct") 10);
           deliver 0 finished ] = Some sys'
    /\ observed sys'
       = [ (1%nat, progress (lit "ocr_correct") 5);
           (0%nat, progress (lit "ocr_correct") 5);
           (1%nat, progress (lit "ocr_correct") 10);
           (0%nat, progress (lit "ocr_correct") 10);
           (0%nat, finished) ]
    /\ current_worker_runnable (win sys') = None.
Proof.
  destruct (steps all_libs (fun _ => demo_world) (initial all_libs demo_world)
              cancel_then_restart) as [sys|] eqn:Hsys;
    [|vm_compute in Hsys; discriminate].
  destruct (steps all_libs (fun _ => demo_world) sys
              [ deliver 1 (progress (lit "ocr_correct") 5);
                deliver 0 (progress (lit "ocr_correct") 5);
                deliver 1 (progress (lit "ocr_correct") 10);
                deliver 0 (progress (lit "ocr_correct") 10);
                deliver 0 finished ]) as [sys'|] eqn:Hsys'.
  2:{ vm_compute in Hsys. injection Hsys as <-. vm_compute in Hsys'. discriminate. }
  exists sys, sys'. split; [reflexivity|].
  vm_compute in Hsys. injection Hsys as <-.
  vm_compute in Hsys'. injection Hsys' as <-.
  repeat split; vm_compute; reflexivity.
Qed.

(** C2, amended: in an execution in which no worker is cancelled and none
    reports an error, a worker is started only after [finished] of every
    earlier worker has been observed, and the observed signals of the
    workers are not interleaved. *)
Theorem next_attempt_after_finished G W world actions sys :
  calm_steps G world (initial G W) actions = Some sys ->
  not_interleaved (observed sys)
  /\ forall a sys',
       calm_step G world sys a = Some sys' ->
       (length (threadpool (win sys)) < length (threadpool (win sys')))%nat ->
       forall w, (w < length (threadpool (win sys)))%nat ->
                 (w, finished) ∈ observed sys.
Proof.
  intros Hsteps.
  pose proof (calm_steps_orderly G world actions _ _ (initial_orderly G W) Hsteps)
    as Hsys.
  split; [apply Hsys|].
  intros a sys' Hstep Hgrows w Hw.
  destruct (step_needs_free_slot G world sys a sys' (calm_step_step _ _ _ _ _ Hstep))
    as [Hsame|Hfree].
  - rewrite Hsame in Hgrows. lia.
  - destruct Hsys as (_ & _ & Hslot & _). rewrite Hfree in Hslot. by apply Hslot.
Qed.

Lemma next_attempt_after_finished_witness :
  (0%nat, finished) ∈ observed review_system.
Proof.
  destruct (calm_step all_libs (fun _ => typo_world) review_system (user_review Redo))
    as [sys'|] eqn:Hstep; [|vm_compute in Hstep; discriminate].
  apply (proj2 (next_attempt_after_finished all_libs typo_world (fun _ => typo_world)
                  to_the_review review_system
                  ltac:(vm_compute; reflexivity))
           (user_review Redo) sys' Hstep).
  - vm_compute in Hstep. injection Hstep as <-. vm_compute. lia.
  - vm_compute. lia.
Defined.

(** After an error the slot is emptied when the error box is closed, not
    when [finished] is observed: a new attempt can start in between. *)
Lemma restart_after_error :
  exists sys,
    steps all_libs (fun _ => demo_world) (initial all_libs demo_world)
      [ select_image (lit "missing.png"); click_analyze;
        deliver 0 (progress (lit "ocr_correct") 5); deliver 0 missing_error;
        user_close; select_image (lit "doc.png"); click_analyze ] = Some sys
    /\ length (threadpool (win sys)) = 2%nat
    /\ current_worker_runnable (win sys) = Some 1%nat
    /\ (0%nat, finished) ∉ observed sys.
Proof.
  destruct (steps all_libs (fun _ => demo_world) (initial all_libs demo_world)
              [ select_image (lit "missing.png"); click_analyze;
                deliver 0 (progress (lit "ocr_correct") 5); deliver 0 missing_error;
                user_close; select_image (lit "doc.png"); click_analyze ])
    as [sys|] eqn:Hsys; [|vm_compute in Hsys; discriminate].
  exists sys. split; [reflexivity|].
  vm_compute in Hsys. injection Hsys as <-.
  repeat split; try (vm_compute; reflexivity).
  intros Hin. apply list_elem_of_In in Hin. vm_compute in Hin.
  intuition discriminate.
Qed.







(** ** The slot and its stop event in reachable states *)

Lemma coherent_start task_type image_path text_input self :
  coherent self ->
  coherent (_start_background_worker task_type image_path text_input self).
Proof.
  unfold coherent, _start_background_worker. attributes self. cbn.
  destruct slot_, event_; cbn; try done. intros _. split.
  - eexists. split; [apply list_lookup_middle; reflexivity | reflexivity].
  - rewrite length_app. cbn. lia.
Qed.

(** A method that touches neither the pool, the slot, its event nor the
    stop events. *)
Ltac coherent_frame self :=
  unfold coherent; attributes self; cbn; done.

Lemma coherent_reset full_reset self :
  coherent self -> coherent (reset_ui_after_task full_reset self).
Proof. unfold reset_ui_after_task. destruct full_reset; coherent_frame self. Qed.

Lemma coherent_cancel self :
  coherent self -> coherent (fst (cancel_current_worker_if_running self)).
Proof.
  unfold coherent, cancel_current_worker_if_running. attributes self. cbn.
  destruct slot_, event_; cbn; done.
Qed.

(** The invariant after a method reduced to assignments, possibly under a
    start. *)
Ltac keep_coherent self H :=
  first
    [ apply coherent_start; revert H; coherent_frame self
    | apply coherent_reset; revert H; coherent_frame self
    | revert H; coherent_frame self ].

Lemma step_coherent G world sys a sys' :
  coherent (win sys) -> step G world sys a = Some sys' -> coherent (win sys').
Proof.
  destruct sys as [self log]. cbn [win]. intros H.
  destruct a as [file_path| | |w sig|h|]; cbn [step win observed].
  - case_match; [|done]. intros [= <-]. cbn [win].
    apply coherent_cancel in H. revert H.
    unfold load_image_and_prepare_analysis.
    generalize (fst (cancel_current_worker_if_running self)). intros cancelled.
    coherent_frame cancelled.
  - case_match; [|done]. intros [= <-]. cbn [win].
    unfold run_ocr_correction_task. repeat case_match; keep_coherent self H.
  - case_match; [|done]. intros [= <-]. cbn [win].
    apply coherent_cancel in H. revert H. unfold cancel_or_reset_all_processes.
    destruct (cancel_current_worker_if_running self) as [cancelled b].
    cbn [fst]. intros H. apply coherent_reset. revert H.
    destruct b; coherent_frame cancelled.
  - case_match; [|done].
    destruct sig as [|msg|kind data|T p]; cbn.
    + intros [= <-]. cbn. unfold coherent, handle_worker_finished.
      attributes self. cbn. by repeat case_match.
    + unfold handle_worker_error. destruct (splitlines_0 msg); [|done].
      cbn. intros [= <-]. keep_coherent self H.
    + intros [= <-]. cbn. unfold handle_worker_result, show_comparison_dialog,
        show_explanation_dialog.
      repeat case_match; keep_coherent self H.
    + intros [= <-]. cbn. unfold handle_worker_progress.
      case_match; keep_coherent self H.
  - destruct (review G h self) as [self1|] eqn:Hreview; [|done].
    intros [= <-]. cbn. revert Hreview. unfold review.
    destruct (open_dialogs self) as [|[d| |] rest] eqn:Hopen; try done.
    destruct (exec d h) as [dialog dialog_result]. intros [= <-].
    unfold show_comparison_dialog_result, run_ocr_correction_task,
      run_explanation_task.
    repeat case_match; keep_coherent self H.
  - destruct (close_dialog self) as [self1|] eqn:Hclose; [|done].
    intros [= <-]. cbn. unfold close_dialog in Hclose.
    destruct (open_dialogs self) as [|[d| |icon title text []] rest] eqn:Hopen;
      try discriminate; injection Hclose as <-.
    + revert H. unfold reset_ui_after_task. coherent_frame self.
    + revert H. coherent_frame self.
    + unfold coherent, handle_worker_error_rest, reset_ui_after_task.
      attributes self. cbn. done.
    + apply coherent_reset. revert H. coherent_frame self.
Qed.

(** In every state the application can reach, the slot is coherent. *)
Lemma steps_coherent G W world actions sys :
  steps G world (initial G W) actions = Some sys -> coherent (win sys).
Proof.
  assert (Hgen : forall sys0, coherent (win sys0) ->
                   steps G world sys0 actions = Some sys -> coherent (win sys)).
  { induction actions as [|a rest IH]; intros sys0 H0 Hsteps; cbn in Hsteps.
    - by injection Hsteps as <-.
    - destruct (step G world sys0 a) as [sys1|] eqn:Ha; [|done].
      eapply IH; [|exact Hsteps]. by eapply step_coherent. }
  apply Hgen. exact I.
Qed.

(** * Further properties *)

(** ** The worker *)

(** The [try] block itself emits no [error]. *)
Lemma run_error_origin G W is_set self msg :
  error msg ∈ run G W is_set self ->
  exists e, snd (run_try G W is_set self) = Raised e /\ msg = error_msg W self e.
Proof.
  rewrite run_of_try. intros Hin. apply elem_of_app in Hin as [Hin|Hin].
  - exfalso. apply list_elem_of_In in Hin.
    destruct (task_type_cases self) as [HT|[HT|[HT HT']]].
    + destruct (run_try_ocr_correct G W is_set self HT)
        as (raw & corrected & k & Hfst & Hk).
      rewrite Hfst in Hin. apply in_app_or in Hin as [Hin|Hin].
      * apply list_elem_of_In, subseteq_take, list_elem_of_In in Hin.
        cbn in Hin. intuition discriminate.
      * destruct (snd (run_try G W is_set self)); cbn in Hin; intuition discriminate.
    + destruct (run_try_explain G W is_set self HT) as (explanation & k & Hfst & Hk).
      rewrite Hfst in Hin. apply in_app_or in Hin as [Hin|Hin].
      * apply list_elem_of_In, subseteq_take, list_elem_of_In in Hin.
        cbn in Hin. intuition discriminate.
      * destruct (snd (run_try G W is_set self)); cbn in Hin; intuition discriminate.
    + rewrite run_try_other in Hin by done. destruct Hin.
  - destruct (snd (run_try G W is_set self)) as [[]| |e].
    + apply list_elem_of_singleton in Hin. discriminate.
    + apply list_elem_of_singleton in Hin. discriminate.
    + exists e. split; [done|]. apply elem_of_cons in Hin as [Hin|Hin].
      * by injection Hin.
      * apply list_elem_of_singleton in Hin. discriminate.
Qed.

(** X1: an [error] signal ends the run: it is emitted once, directly
    before the single [finished], after signals that are neither; its
    message is the one the [except] clause builds, and the run has not
    succeeded. *)
Theorem error_ends_the_run G W is_set self msg :
  error msg ∈ run G W is_set self ->
  exists body e,
    run G W is_set self = body ++ [error msg; finished]
    /\ msg = error_msg W self e
    /\ (forall m, error m ∉ body)
    /\ (finished ∉ body)
    /\ ~ succeeded G W is_set self.
Proof.
  intros Hin. destruct (run_error_origin G W is_set self msg Hin) as (e & Hsnd & ->).
  apply list_elem_of_In in Hin.
  run_cases G W is_set self Hrun; rewrite Hrun in Hin; cbn [In] in Hin.
  all: repeat match goal with
              | H : _ \/ _ |- _ => destruct H as [H|H]
              | H : False |- _ => destruct H
              | H : _ = error _ |- _ => first [discriminate H | injection H as H]
              end.
  all: subst; rewrite Hrun.
  all: match goal with
       | |- exists body e', ?l = _ /\ _ =>
         exists (removelast (removelast l)), e
       end; cbn [removelast].
  all: split; [reflexivity|]; split; [reflexivity|].
  all: split; [intros m Hm|split; [intros Hm|assumption]].
  all: apply list_elem_of_In in Hm; cbn [In] in Hm; intuition discriminate.
Qed.

Lemma error_ends_the_run_witness :
  exists body e,
    run all_libs demo_world never_set missing_worker
    = body ++ [missing_error; finished]
    /\ missing_error = error (error_msg demo_world missing_worker e).
Proof.
  destruct (error_ends_the_run all_libs demo_world never_set missing_worker
              (error_msg demo_world missing_worker
                 (ValueError (lit "OCR을 위한 이미지 경로가 유효하지 않습니다."))))
    as (body & e & Hrun & Hmsg & _).
  { vm_compute. right. left. }
  exists body, e. split; [exact Hrun|]. unfold missing_error. by rewrite <- Hmsg.
Defined.

Lemma kind_not_both (kind a b : str) :
  a <> b -> str_eqb a kind = true -> str_eqb b kind = true -> False.
Proof. intros Hne Ha Hb. apply str_eqb_eq in Ha, Hb. congruence. Qed.

(** X2: a run emits at most one [result] of any kind; a
    recognise-and-correct run emits no [explanation_result], and an
    explanation run no [ocr_result] and no [corrected_text_result]. *)
Theorem results_at_most_once G W is_set self :
  (forall kind, (length (results_of kind (run G W is_set self)) <= 1)%nat)
  /\ (task_type self = lit "ocr_correct" ->
      results_of (lit "explanation_result") (run G W is_set self) = [])
  /\ (task_type self = lit "explain" ->
      results_of (lit "ocr_result") (run G W is_set self) = []
      /\ results_of (lit "corrected_text_result") (run G W is_set self) = []).
Proof.
  run_cases G W is_set self Hrun; rewrite Hrun.
  all: split;
    [ intros kind; unfold results_of; cbn [omap list_omap];
      repeat match goal with
             | |- context [if str_eqb ?a ?k then _ else _] =>
               let E := fresh "E" in destruct (str_eqb a k) eqn:E
             end; cbn [length];
      first [ lia
            | exfalso; eapply kind_not_both;
              [exact ocr_result_not_corrected | eassumption | eassumption] ]
    | ].
  all: split; intros HT2;
    try (rewrite HT in HT2; exfalso;
         first [ exact (ocr_correct_not_explain HT2)
               | exact (ocr_correct_not_explain (eq_sym HT2)) ]);
    try contradiction.
  all: try split; vm_compute; reflexivity.
Qed.

Lemma results_at_most_once_witness :
  results_of (lit "explanation_result")
    (run all_libs demo_world never_set demo_worker) = [].
Proof.
  apply (results_at_most_once all_libs demo_world never_set demo_worker).
  reflexivity.
Defined.

(** The paths of a run of a given task type, one goal each. *)
Ltac run_paths HT :=
  rewrite run_of_try; unfold run_try; rewrite HT;
  try change (str_eqb (lit "explain") (lit "ocr_correct")) with false;
  rewrite ?str_eqb_refl; cbv iota;
  repeat run_step.

Ltac not_in_list :=
  let Hin := fresh "Hin" in
  intros Hin; apply list_elem_of_In in Hin; cbn [In] in Hin; intuition discriminate.

(** X3: when the stop event is set at the first check of a run, the run
    emits no [result] at all. *)
Theorem stop_at_first_check_no_result G W is_set self :
  is_set 0%nat = true ->
  forall kind data, result kind data ∉ run G W is_set self.
Proof.
  intros Hset kind data.
  destruct (task_type_cases self) as [HT|[HT|[HT HT']]].
  - run_paths HT; try discriminate; not_in_list.
  - run_paths HT; try discriminate; not_in_list.
  - rewrite run_other by done. not_in_list.
Qed.

Lemma stop_at_first_check_no_result_witness :
  result (lit "ocr_result") (lit "Hello wrold")
  ∉ run all_libs demo_world always_set demo_worker.
Proof.
  apply (stop_at_first_check_no_result all_libs demo_world always_set demo_worker).
  reflexivity.
Defined.

Lemma bind_ret {A B} (a : A) (k : A -> Emit B) : bind (ret a) k = k a.
Proof. unfold bind, ret. by destruct (k a). Qed.

Lemma fst_bind_emit {B} (s : Signal) (k : unit -> Emit B) :
  fst (bind (emit s) k) = s :: fst (k tt).
Proof. unfold bind, emit. by destruct (k tt). Qed.

(** X4: a missing library fails a run before any progress: the
    recognise-and-correct task needs all three libraries, the explanation
    task needs GPT4All only; with them present the run starts with its
    first [progress]. *)
Theorem missing_library_fails_first G W is_set self :
  (task_type self = lit "ocr_correct" ->
   easyocr G && GPT4All G && cv2 G = false ->
   exists msg,
     run G W is_set self = [error (error_msg W self (ImportError msg)); finished])
  /\ (task_type self = lit "explain" ->
      GPT4All G = false ->
      exists msg,
        run G W is_set self = [error (error_msg W self (ImportError msg)); finished])
  /\ (task_type self = lit "ocr_correct" ->
      easyocr G && GPT4All G && cv2 G = true ->
      exists rest, run G W is_set self = progress (task_type self) 5 :: rest)
  /\ (task_type self = lit "explain" ->
      GPT4All G = true ->
      exists rest, run G W is_set self = progress (task_type self) 10 :: rest).
Proof.
  repeat split.
  - intros HT Hlibs. rewrite run_of_try. unfold run_try. rewrite HT, str_eqb_refl.
    destruct (easyocr G), (GPT4All G), (cv2 G); try discriminate Hlibs;
      cbn [negb when bind raise ret fst snd app]; eexists; reflexivity.
  - intros HT Hlib. rewrite run_of_try. unfold run_try. rewrite HT.
    change (str_eqb (lit "explain") (lit "ocr_correct")) with false.
    rewrite str_eqb_refl, Hlib. cbn [negb when bind raise ret fst snd app].
    eexists; reflexivity.
  - intros HT Hlibs. rewrite run_of_try. unfold run_try. rewrite HT, str_eqb_refl.
    destruct (easyocr G), (GPT4All G), (cv2 G); try discriminate Hlibs.
    cbn [negb when]. rewrite !bind_ret, fst_bind_emit. cbn [app].
    eexists; reflexivity.
  - intros HT Hlib. rewrite run_of_try. unfold run_try. rewrite HT.
    change (str_eqb (lit "explain") (lit "ocr_correct")) with false.
    rewrite str_eqb_refl, Hlib. cbn [negb when].
    rewrite !bind_ret, fst_bind_emit. cbn [app]. eexists; reflexivity.
Qed.

Lemma missing_library_fails_first_witness :
  (exists msg,
     run (mkGlobals true false true) demo_world never_set demo_worker
     = [error (error_msg demo_world demo_worker (ImportError msg)); finished])
  /\ exists rest,
       run all_libs demo_world never_set demo_worker
       = progress (lit "ocr_correct") 5 :: rest.
Proof.
  destruct (missing_library_fails_first (mkGlobals true false true) demo_world
              never_set demo_worker) as (Hmissing & _).
  destruct (missing_library_fails_first all_libs demo_world never_set demo_worker)
    as (_ & _ & Hpresent & _).
  split; [apply Hmissing | apply Hpresent]; reflexivity.
Defined.

(** X5: [progress 100] is emitted only directly after the final result of
    a task, the corrected text or the explanation, and directly before
    [finished], in a run that succeeds. *)
Theorem hundred_follows_the_final_result G W is_set self T :
  progress T 100 ∈ run G W is_set self ->
  exists body kind data,
    run G W is_set self = body ++ [result kind data; progress T 100; finished]
    /\ (kind = lit "corrected_text_result" \/ kind = lit "explanation_result")
    /\ succeeded G W is_set self.
Proof.
  intros Hin. apply list_elem_of_In in Hin.
  run_cases G W is_set self Hrun; rewrite Hrun in Hin; cbn [In] in Hin.
  all: repeat match goal with
              | H : _ \/ _ |- _ => destruct H as [H|H]
              | H : False |- _ => destruct H
              | H : _ = progress _ _ |- _ => first [discriminate H | injection H as H]
              end.
  all: subst; rewrite Hrun.
  - exists (take 5 (ocr_signals (task_type self) raw corrected)). cbn [take ocr_signals].
    eexists _, _. split; [reflexivity|]. split; [by left | assumption].
  - exists [progress (task_type self) 10]. eexists _, _.
    split; [reflexivity|]. split; [by right | assumption].
Qed.

Lemma hundred_follows_the_final_result_witness :
  exists body kind data,
    run all_libs demo_world never_set demo_worker
    = body ++ [result kind data; progress (lit "ocr_correct") 100; finished].
Proof.
  destruct (hundred_follows_the_final_result all_libs demo_world never_set
              demo_worker (lit "ocr_correct"))
    as (body & kind & data & Hrun & _).
  { vm_compute. do 6 right. left. }
  exists body, kind, data. exact Hrun.
Defined.

(** X6: once a stop check of a run has seen the stop event, the run emits
    no [corrected_text_result]: a stop seen at the second check leaves the
    raw text as the only result. *)
Theorem stop_seen_no_corrected_text G W is_set self :
  is_set 0%nat || is_set 1%nat || is_set 2%nat = true ->
  (forall data, result (lit "corrected_text_result") data ∉ run G W is_set self)
  /\ (is_set 1%nat = true -> forall T, progress T 55 ∉ run G W is_set self).
Proof.
  intros Hset.
  destruct (task_type_cases self) as [HT|[HT|[HT HT']]].
  - run_paths HT;
      repeat match goal with
             | H : is_set _ = _ |- _ => rewrite H in Hset
             end; try discriminate Hset;
      (split; [intros data|intros H1 T; try discriminate H1]); not_in_list.
  - run_paths HT; (split; [intros data|intros H1 T]); not_in_list.
  - rewrite run_other by done. split; [intros data|intros H1 T]; not_in_list.
Qed.

Lemma stop_seen_no_corrected_text_witness :
  result (lit "corrected_text_result") (lit "Hello world.")
  ∉ run all_libs demo_world (fun n => (1 <=? n)%nat) demo_worker.
Proof.
  apply (stop_seen_no_corrected_text all_libs demo_world (fun n => (1 <=? n)%nat)
           demo_worker).
  reflexivity.
Defined.

(** X7: the successful run of the recognise-and-correct task.  With the
    three libraries imported, an image that exists and loads, a reader and
    a model preloaded or loadable, engines that answer and a stop event
    that stays unset, the run is progress 5 and 10, the raw text, progress
    50 and 55, the corrected text, progress 100 and [finished]. *)
Theorem ocr_correct_run_succeeds G W is_set self path r m fragments output :
  task_type self = lit "ocr_correct" ->
  easyocr G = true -> GPT4All G = true -> cv2 G = true ->
  image_path self = Some path -> truthy path = true ->
  os_path_exists W path = true -> cv2_imread W path = true ->
  uses_reader W self r ->
  readtext W r path = inr fragments ->
  uses_model W self m ->
  generate W m (prompt_template_correction (join nl fragments))
           (len (join nl fragments) * 2 + 300) 0.6%Q 40 0.9%Q = inr output ->
  is_set 0%nat = false -> is_set 1%nat = false -> is_set 2%nat = false ->
  run G W is_set self
  = ocr_signals (task_type self) (join nl fragments) (strip output) ++ [finished].
Proof.
  intros HT He Hg Hc Himage Htruthy Hexists Hloads Hreader Hread Hmodel Hgen H0 H1 H2.
  rewrite run_of_try. unfold run_try.
  rewrite HT, str_eqb_refl, He, Hg, Hc, Himage, Htruthy, Hexists, H0, H1, H2.
  cbn [negb andb when bind ret emit raise call check_stop app fst snd].
  rewrite Hloads.
  cbn [negb andb when bind ret emit raise call check_stop app fst snd].
  assert (Hr : match ocr_reader self with
               | Some r0 => ret r0
               | None => call (easyocr_Reader W)
               end = ret r).
  { destruct Hreader as [->|[-> ->]]; reflexivity. }
  assert (Hm : match llm_model self with
               | Some m0 => ret (Some m0)
               | None => m0 <- call (GPT4All_load W (model_name self));; ret (Some m0)
               end = ret (Some m)).
  { destruct Hmodel as [->|[-> ->]]; reflexivity. }
  rewrite Hr, Hm.
  cbn [negb andb when bind ret emit raise call check_stop app fst snd].
  rewrite Hread.
  cbn [negb andb when bind ret emit raise call check_stop app fst snd].
  rewrite Hgen.
  cbn [negb andb when bind ret emit raise call check_stop app fst snd].
  reflexivity.
Qed.

Lemma ocr_correct_run_succeeds_witness :
  run all_libs demo_world never_set demo_worker
  = ocr_signals (lit "ocr_correct") (join nl [lit "Hello wrold"])
      (strip (lit " Hello world.
")) ++ [finished].
Proof.
  apply (ocr_correct_run_succeeds all_libs demo_world never_set demo_worker
           (lit "doc.png") 0%nat 0%nat [lit "Hello wrold"] (lit " Hello world.
")); try reflexivity; by left.
Defined.

(** X8: the successful run of the explanation task: progress 10, the
    stripped answer of the model to the explanation prompt, progress 100
    and [finished]. *)
Theorem explain_run_succeeds G W is_set self text m output :
  task_type self = lit "explain" ->
  GPT4All G = true ->
  text_input self = Some text -> truthy text = true ->
  uses_model W self m ->
  generate W m (prompt_template_explanation text) (len text + 500)
           0.7%Q 50 0.95%Q = inr output ->
  is_set 0%nat = false ->
  run G W is_set self
  = explain_signals (task_type self) (strip output) ++ [finished].
Proof.
  intros HT Hg Htext Htruthy Hmodel Hgen H0.
  rewrite run_of_try. unfold run_try. rewrite HT.
  change (str_eqb (lit "explain") (lit "ocr_correct")) with false.
  rewrite str_eqb_refl, Hg, Htext, Htruthy, H0.
  cbn [negb andb when bind ret emit raise call check_stop app fst snd].
  assert (Hm : match llm_model self with
               | Some m0 => ret (Some m0)
               | None => m0 <- call (GPT4All_load W (model_name self));; ret (Some m0)
               end = ret (Some m)).
  { destruct Hmodel as [->|[-> ->]]; reflexivity. }
  rewrite Hm.
  cbn [negb andb when bind ret emit raise call check_stop app fst snd].
  rewrite Hgen.
  cbn [negb andb when bind ret emit raise call check_stop app fst snd].
  reflexivity.
Qed.

Lemma explain_run_succeeds_witness :
  run all_libs demo_world never_set
    (mkWorker (lit "explain") None (Some (lit "Hello world."))
       (lit "Meta-Llama-3-8B-Instruct.Q4_0.gguf") 0 None None)
  = explain_signals (lit "explain") (strip (lit " Hello world.
")) ++ [finished].
Proof.
  apply (explain_run_succeeds all_libs demo_world never_set
           (mkWorker (lit "explain") None (Some (lit "Hello world."))
              (lit "Meta-Llama-3-8B-Instruct.Q4_0.gguf") 0 None None)
           (lit "Hello world.") 0%nat (lit " Hello world.
")); try reflexivity.
  right. split; reflexivity.
Defined.

(** ** The slots and buttons of the window *)

Lemma error_msg_not_empty W self e : error_msg W self e <> [].
Proof.
  unfold error_msg. destruct (lit "작업 유형 '") as [|c prefix] eqn:E.
  - vm_compute in E. discriminate.
  - discriminate.
Qed.

Lemma may_have_emitted_run G world self w sigs :
  may_have_emitted G world self w sigs = true ->
  exists worker is_set,
    threadpool self !! w = Some worker
    /\ sigs `prefix_of` run G (world w) is_set worker.
Proof.
  unfold may_have_emitted. destruct (threadpool self !! w) as [worker|]; [|done].
  intros Hex. apply existsb_exists in Hex as (is_set & _ & Hprefix).
  apply bool_decide_eq_true in Hprefix. by exists worker, is_set.
Qed.

(** X9: a signal that a worker can have emitted never fails its slot: the
    message of an [error] signal is never empty, so [splitlines()[0]] in
    [handle_worker_error] does not raise, and the step is taken. *)
Theorem delivery_is_handled G world sys w sig :
  may_have_emitted G world (win sys) w (signals_of w (observed sys) ++ [sig]) = true ->
  exists self',
    slot sig (win sys) = Some self'
    /\ step G world sys (deliver w sig)
       = Some (mkSystem self' (observed sys ++ [(w, sig)])).
Proof.
  intros Hmay. cbn [step]. rewrite Hmay.
  destruct sig as [|msg|kind data|T p]; cbn [slot]; try (eexists; split; reflexivity).
  destruct (may_have_emitted_run _ _ _ _ _ Hmay) as (worker & is_set & _ & [k Hk]).
  assert (Hin : error msg ∈ run G (world w) is_set worker).
  { rewrite Hk. apply elem_of_app. left. apply elem_of_app. right.
    by apply list_elem_of_singleton. }
  destruct (run_error_origin _ _ _ _ _ Hin) as (e & _ & ->).
  unfold handle_worker_error, splitlines_0.
  destruct (error_msg (world w) worker e) eqn:E.
  - by apply error_msg_not_empty in E.
  - cbn. eexists. split; reflexivity.
Qed.

Lemma delivery_is_handled_witness :
  exists self',
    slot missing_error
      (win (mkSystem
              (run_ocr_correction_task all_libs
                 (load_image_and_prepare_analysis (lit "missing.png")
                    (MainWindow_init all_libs demo_world)))
              [(0%nat, progress (lit "ocr_correct") 5)]))
    = Some self'.
Proof.
  destruct (delivery_is_handled all_libs (fun _ => demo_world)
              (mkSystem
                 (run_ocr_correction_task all_libs
                    (load_image_and_prepare_analysis (lit "missing.png")
                       (MainWindow_init all_libs demo_world)))
                 [(0%nat, progress (lit "ocr_correct") 5)])
              0%nat missing_error) as (self' & Hslot & _).
  { vm_compute. reflexivity. }
  exists self'. exact Hslot.
Defined.

(** X10: after an [error] signal is handled and its message box closed,
    the window is fully reset: the slot and its event are empty, no image
    is selected, the stored texts are empty, the progress bar is at 0, and
    only image selection and cancel are enabled; the pool, the stop events
    and the dialogs that were open before are as they were. *)
Theorem error_resets_the_window msg self self' :
  handle_worker_error msg self = Some self' ->
  exists idle,
    close_dialog self' = Some idle
    /\ current_worker_runnable idle = None
    /\ stop_current_worker_event idle = None
    /\ current_image_path idle = None
    /\ raw_ocr_text idle = []
    /\ current_corrected_text idle = []
    /\ final_accepted_text_for_explanation idle = []
    /\ progress_bar idle = 0%Z
    /\ analyze_button idle = false
    /\ select_image_button idle = true
    /\ cancel_task_button idle = true
    /\ threadpool idle = threadpool self
    /\ stop_events idle = stop_events self
    /\ open_dialogs idle = open_dialogs self.
Proof.
  unfold handle_worker_error. destruct (splitlines_0 msg) as [first_line|]; [|done].
  cbn. intros [= <-]. attributes self. eexists. split; [reflexivity|].
  repeat split.
Qed.

Lemma error_resets_the_window_witness :
  exists self' idle,
    handle_worker_error (lit "ValueError: no image") busy_window = Some self'
    /\ close_dialog self' = Some idle
    /\ current_worker_runnable idle = None
    /\ current_image_path idle = None.
Proof.
  destruct (handle_worker_error (lit "ValueError: no image") busy_window)
    as [self'|] eqn:Hhandle; [|vm_compute in Hhandle; discriminate].
  destruct (error_resets_the_window _ _ _ Hhandle) as (idle & Hclose & Hslot & _ & Himage & _).
  exists self', idle. repeat split; assumption.
Defined.

(** X11: the cancel button.  In a coherent state it sets the stop event of
    the worker in the slot, if any, and no other; it never unsets an event;
    and it leaves the window fully reset, with the slot empty, no image,
    empty texts, progress 0 and only image selection and cancel enabled.
    The pool and the open dialogs are not touched. *)
Theorem cancel_button_clears self :
  coherent self ->
  let after := cancel_or_reset_all_processes self in
  (forall w worker,
     current_worker_runnable self = Some w ->
     threadpool self !! w = Some worker ->
     stop_events after = <[stop_event worker := true]> (stop_events self))
  /\ (current_worker_runnable self = None -> stop_events after = stop_events self)
  /\ (forall i, stop_events self !! i = Some true -> stop_events after !! i = Some true)
  /\ current_worker_runnable after = None
  /\ stop_current_worker_event after = None
  /\ current_image_path after = None
  /\ raw_ocr_text after = []
  /\ current_corrected_text after = []
  /\ final_accepted_text_for_explanation after = []
  /\ progress_bar after = 0%Z
  /\ analyze_button after = false
  /\ select_image_button after = true
  /\ cancel_task_button after = true
  /\ threadpool after = threadpool self
  /\ open_dialogs after = open_dialogs self.
Proof.
  unfold coherent, cancel_or_reset_all_processes, cancel_current_worker_if_running.
  attributes self. cbn.
  destruct slot_ as [w|], event_ as [ev|]; cbn; try done.
  intros [(worker & Hworker & <-) Hlen]. repeat split; try done.
  - intros w' worker' [= <-] Hworker'. rewrite Hworker in Hworker'.
    by injection Hworker' as <-.
  - intros i Hi. destruct (decide (i = stop_event worker)) as [->|Hne].
    + by apply list_lookup_insert_eq.
    + by rewrite list_lookup_insert_ne.
Qed.

Lemma cancel_button_clears_witness :
  stop_events (cancel_or_reset_all_processes busy_window) = [true]
  /\ current_worker_runnable (cancel_or_reset_all_processes busy_window) = None.
Proof.
  assert (Hcoherent : coherent busy_window).
  { vm_compute. split; [eexists; split; reflexivity | constructor]. }
  destruct (cancel_button_clears busy_window Hcoherent)
    as (Hset & _ & _ & Hslot & _).
  split; [|exact Hslot].
  rewrite (Hset 0%nat demo_worker); vm_compute; reflexivity.
Defined.

(** X12: closing the window sets the stop event of the worker in the slot
    and of no other worker, and empties the slot; with an empty slot it
    only changes the status message. *)
Theorem close_event_stops_the_worker self :
  coherent self ->
  (forall w worker,
     current_worker_runnable self = Some w ->
     threadpool self !! w = Some worker ->
     stop_events (closeEvent self) = <[stop_event worker := true]> (stop_events self)
     /\ current_worker_runnable (closeEvent self) = None
     /\ stop_current_worker_event (closeEvent self) = None)
  /\ (current_worker_runnable self = None ->
      closeEvent self = update_status_message (lit "애플리케이션 종료 중...") self)
  /\ threadpool (closeEvent self) = threadpool self.
Proof.
  unfold coherent, closeEvent, cancel_current_worker_if_running.
  attributes self. cbn.
  destruct slot_ as [w|], event_ as [ev|]; cbn; try done.
  intros [(worker & Hworker & <-) Hlen]. repeat split; try done.
  by simplify_eq.
Qed.

Lemma close_event_stops_the_worker_witness :
  stop_events (closeEvent busy_window) = [true]
  /\ current_worker_runnable (closeEvent busy_window) = None.
Proof.
  assert (Hcoherent : coherent busy_window).
  { vm_compute. split; [eexists; split; reflexivity | constructor]. }
  destruct (close_event_stops_the_worker busy_window Hcoherent) as (Hstop & _ & _).
  destruct (Hstop 0%nat demo_worker) as (Hset & Hslot & _);
    [vm_compute; reflexivity..|].
  split; [|exact Hslot]. rewrite Hset. vm_compute. reflexivity.
Defined.

(** The worker [run_ocr_correction_task] hands to the pool when an image
    is selected, the libraries are available and the slot is free. *)
Lemma run_ocr_correction_task_started G self path :
  current_image_path self = Some path -> truthy path = true ->
  (loaded (ocr_reader_instance self) || easyocr G)
  && (loaded (llm_model_instance self) || GPT4All G) && cv2 G = true ->
  current_worker_runnable self = None ->
  run_ocr_correction_task G self
  = _start_background_worker (lit "ocr_correct") (Some path) None
      (set_current_corrected_text [] (set_raw_ocr_text [] self))
  /\ threadpool (run_ocr_correction_task G self)
     = threadpool self
       ++ [mkWorker (lit "ocr_correct") (Some path) None (llm_model_name self)
             (length (stop_events self)) (ocr_reader_instance self)
             (llm_model_instance self)]
  /\ current_worker_runnable (run_ocr_correction_task G self)
     = Some (length (threadpool self))
  /\ stop_current_worker_event (run_ocr_correction_task G self)
     = Some (length (stop_events self))
  /\ stop_events (run_ocr_correction_task G self) = stop_events self ++ [false]
  /\ raw_ocr_text (run_ocr_correction_task G self) = []
  /\ current_corrected_text (run_ocr_correction_task G self) = []
  /\ progress_bar (run_ocr_correction_task G self) = 0%Z
  /\ current_image_path (run_ocr_correction_task G self) = Some path
  /\ analyze_button (run_ocr_correction_task G self) = false
  /\ select_image_button (run_ocr_correction_task G self) = false
  /\ cancel_task_button (run_ocr_correction_task G self) = true
  /\ open_dialogs (run_ocr_correction_task G self) = open_dialogs self.
Proof.
  intros Himage Htruthy Hlibs Hfree. unfold run_ocr_correction_task.
  rewrite Himage. cbn [truthy_opt]. rewrite Htruthy. cbn [negb].
  apply andb_true_iff in Hlibs as [Hlibs Hcv]. apply andb_true_iff in Hlibs as [Hocr Hllm].
  rewrite <- negb_orb, Hocr, <- negb_orb, Hllm, Hcv. cbn [negb].
  attributes self. cbn in Himage, Hfree. subst. repeat split.
Qed.

(** X13: starting the analysis.  With an image selected, the libraries
    available and the slot free, [run_ocr_correction_task] empties the raw
    and the corrected text, hands a recognise-and-correct worker for the
    selected image to the pool with a fresh, unset stop event, takes the
    slot and disables analysis and image selection; with a library missing
    it only shows a critical message box. *)
Theorem analysis_starts_or_reports G self path :
  current_image_path self = Some path -> truthy path = true ->
  ((loaded (ocr_reader_instance self) || easyocr G)
   && (loaded (llm_model_instance self) || GPT4All G) && cv2 G = true ->
   current_worker_runnable self = None ->
   let started := run_ocr_correction_task G self in
   threadpool started
   = threadpool self
     ++ [mkWorker (lit "ocr_correct") (Some path) None (llm_model_name self)
           (length (stop_events self)) (ocr_reader_instance self)
           (llm_model_instance self)]
   /\ current_worker_runnable started = Some (length (threadpool self))
   /\ stop_current_worker_event started = Some (length (stop_events self))
   /\ stop_events started = stop_events self ++ [false]
   /\ raw_ocr_text started = []
   /\ current_corrected_text started = []
   /\ progress_bar started = 0%Z
   /\ analyze_button started = false
   /\ select_image_button started = false
   /\ cancel_task_button started = true)
  /\ ((loaded (ocr_reader_instance self) || easyocr G)
      && (loaded (llm_model_instance self) || GPT4All G) && cv2 G = false ->
      exists title text,
        run_ocr_correction_task G self
        = open_dialog (message_box Critical title text in_run_task) self).
Proof.
  intros Himage Htruthy. split.
  - intros Hlibs Hfree started.
    destruct (run_ocr_correction_task_started G self path Himage Htruthy Hlibs Hfree)
      as (_ & ? & ? & ? & ? & ? & ? & ? & ? & ? & ? & ? & ?).
    by repeat split.
  - intros Hlibs. unfold run_ocr_correction_task.
    rewrite Himage. cbn [truthy_opt]. rewrite Htruthy. cbn [negb].
    rewrite <- !negb_orb.
    destruct (loaded (ocr_reader_instance self) || easyocr G); cbn [negb];
      [|eexists _, _; reflexivity].
    destruct (loaded (llm_model_instance self) || GPT4All G); cbn [negb];
      [|eexists _, _; reflexivity].
    destruct (cv2 G); [discriminate Hlibs|]. eexists _, _; reflexivity.
Qed.

Lemma analysis_starts_or_reports_witness :
  current_worker_runnable busy_window = Some 0%nat
  /\ stop_events busy_window = [false]
  /\ exists title text,
       run_ocr_correction_task (mkGlobals true true false)
         (load_image_and_prepare_analysis (lit "doc.png")
            (MainWindow_init all_libs demo_world))
       = open_dialog (message_box Critical title text in_run_task)
           (load_image_and_prepare_analysis (lit "doc.png")
              (MainWindow_init all_libs demo_world)).
Proof.
  destruct (analysis_starts_or_reports all_libs
              (load_image_and_prepare_analysis (lit "doc.png")
                 (MainWindow_init all_libs demo_world))
              (lit "doc.png") eq_refl eq_refl) as (Hstart & _).
  destruct (Hstart eq_refl eq_refl) as (_ & Hslot & _ & Hevents & _).
  destruct (analysis_starts_or_reports (mkGlobals true true false)
              (load_image_and_prepare_analysis (lit "doc.png")
                 (MainWindow_init all_libs demo_world))
              (lit "doc.png") eq_refl eq_refl) as (_ & Hreport).
  split; [exact Hslot|]. split; [exact Hevents|]. apply Hreport. reflexivity.
Defined.

(** X14: Redo at the review.  With the image still selected, the
    libraries available and the slot free, the dialog is closed and a new
    recognise-and-correct worker for the same image is started, with the
    raw and the corrected text of the attempt discarded. *)
Theorem redo_restarts_the_analysis G self d rest path :
  open_dialogs self = comparison_dialog d :: rest ->
  current_image_path self = Some path -> truthy path = true ->
  (loaded (ocr_reader_instance self) || easyocr G)
  && (loaded (llm_model_instance self) || GPT4All G) && cv2 G = true ->
  current_worker_runnable self = None ->
  exists self',
    review G Redo self = Some self'
    /\ threadpool self'
       = threadpool self
         ++ [mkWorker (lit "ocr_correct") (Some path) None (llm_model_name self)
               (length (stop_events self)) (ocr_reader_instance self)
               (llm_model_instance self)]
    /\ current_worker_runnable self' = Some (length (threadpool self))
    /\ raw_ocr_text self' = []
    /\ current_corrected_text self' = []
    /\ current_image_path self' = Some path
    /\ open_dialogs self' = rest.
Proof.
  intros Hopen Himage Htruthy Hlibs Hfree. unfold review. rewrite Hopen.
  cbn [exec on_redo]. eexists. split; [reflexivity|].
  unfold show_comparison_dialog_result. cbn [Z.eqb Pos.eqb].
  set (popped := update_status_message _ (pop_dialog self)).
  assert (Hpopped : current_image_path popped = Some path
                    /\ current_worker_runnable popped = None
                    /\ threadpool popped = threadpool self
                    /\ stop_events popped = stop_events self
                    /\ llm_model_name popped = llm_model_name self
                    /\ ocr_reader_instance popped = ocr_reader_instance self
                    /\ llm_model_instance popped = llm_model_instance self
                    /\ open_dialogs popped = rest).
  { subst popped. revert Hopen Himage Hfree. attributes self. cbn.
    intros -> -> ->. repeat split. }
  destruct Hpopped as (Hi & Hs & Hp & He & Hn & Ho & Hl & Hd).
  destruct (run_ocr_correction_task_started G popped path Hi Htruthy)
    as (_ & Hpool & Hslot & _ & _ & Hraw & Hcorrected & _ & Himage' & _ & _ & _ & Hdialogs);
    [by rewrite Ho, Hl | exact Hs |].
  rewrite Hpool, Hslot, Hp, He, Hn, Ho, Hl, Hdialogs, Hd. by repeat split.
Qed.

Lemma redo_restarts_the_analysis_witness :
  exists self',
    review all_libs Redo review_window = Some self'
    /\ current_worker_runnable self' = Some 1%nat
    /\ current_corrected_text self' = [].
Proof.
  destruct (redo_restarts_the_analysis all_libs review_window
              (ComparisonDialog_init (Some (lit "doc.png")) (lit "Hello wrold")
                 (lit "Hello wrold."))
              [] (lit "doc.png"))
    as (self' & Hreview & _ & Hslot & _ & Hcorrected & _);
    try (vm_compute; reflexivity).
  exists self'. split; [exact Hreview|]. split; [|exact Hcorrected].
  rewrite Hslot. vm_compute. reflexivity.
Defined.

(** X15: Cancel at the review, or closing the dialog: no worker is
    started and the window is fully reset, with no image, empty texts,
    progress 0 and analysis disabled; the slot is not touched. *)
Theorem review_cancel_resets G self d rest :
  open_dialogs self = comparison_dialog d :: rest ->
  exists self',
    review G Cancel self = Some self'
    /\ threadpool self' = threadpool self
    /\ current_worker_runnable self' = current_worker_runnable self
    /\ stop_events self' = stop_events self
    /\ current_image_path self' = None
    /\ raw_ocr_text self' = []
    /\ current_corrected_text self' = []
    /\ final_accepted_text_for_explanation self' = []
    /\ progress_bar self' = 0%Z
    /\ analyze_button self' = false
    /\ select_image_button self' = true
    /\ open_dialogs self' = rest.
Proof.
  intros Hopen. unfold review. rewrite Hopen. cbn [exec reject].
  eexists. split; [reflexivity|]. revert Hopen. attributes self. cbn.
  intros ->. repeat split.
Qed.

Lemma review_cancel_resets_witness :
  exists self',
    review all_libs Cancel review_window = Some self'
    /\ current_image_path self' = None
    /\ open_dialogs self' = [].
Proof.
  destruct (review_cancel_resets all_libs review_window
              (ComparisonDialog_init (Some (lit "doc.png")) (lit "Hello wrold")
                 (lit "Hello wrold."))
              []) as (self' & Hreview & _ & _ & _ & Himage & _ & _ & _ & _ & _ & _ & Hd).
  { vm_compute. reflexivity. }
  exists self'. repeat split; assumption.
Defined.

Lemma placeholder_not_blank :
  truthy (lit "LLM 정제 결과가 없습니다.") = true
  /\ truthy (strip (lit "LLM 정제 결과가 없습니다.")) = true.
Proof. split; vm_compute; reflexivity. Qed.

(** X16: an empty corrected text.  When the [corrected_text_result]
    carries the empty string, the comparison dialog is opened on the
    placeholder text; once [progress 100] and [finished] of the worker
    have been delivered, which frees the slot, accepting the placeholder
    unedited starts an explanation worker whose text input is that
    placeholder. *)
Theorem empty_correction_explains_the_placeholder G self path T :
  current_image_path self = Some path -> truthy path = true ->
  loaded (llm_model_instance self) || GPT4All G = true ->
  let shown := handle_worker_result (lit "corrected_text_result") [] self in
  let at_review := handle_worker_finished (handle_worker_progress T 100 shown) in
  exists d self' worker,
    open_dialogs shown = comparison_dialog d :: open_dialogs self
    /\ current_worker_runnable shown = current_worker_runnable self
    /\ refined_text_edit d = lit "LLM 정제 결과가 없습니다."
    /\ review G (Accept (refined_text_edit d)) at_review = Some self'
    /\ threadpool self' = threadpool self ++ [worker]
    /\ current_worker_runnable self' = Some (length (threadpool self))
    /\ task_type worker = lit "explain"
    /\ text_input worker = Some (lit "LLM 정제 결과가 없습니다.").
Proof.
  intros Himage Htruthy Hmodel shown at_review. subst at_review shown.
  revert Himage Hmodel. attributes self. cbn. intros -> Hmodel.
  exists (ComparisonDialog_init (Some path) raw []).
  unfold handle_worker_result.
  change (str_eqb (lit "corrected_text_result") (lit "ocr_result")) with false.
  rewrite str_eqb_refl. cbv iota. unfold show_comparison_dialog.
  cbn [current_image_path update_status_message set_status_label
       set_current_corrected_text truthy_opt].
  rewrite Htruthy. cbn [negb].
  destruct placeholder_not_blank as [Hp Hs].
  unfold review, show_comparison_dialog_result, run_explanation_task,
    _start_background_worker, handle_worker_finished, handle_worker_progress.
  cbn.
  assert (Hguard : negb (loaded llm) && negb (GPT4All G) = false).
  { apply orb_true_iff in Hmodel as [->| ->]; [done|]. by rewrite andb_false_r. }
  destruct slot_ as [w|]; cbn;
    [destruct (pool !! w) as [worker|]; cbn;
     [destruct (negb (str_eqb (task_type worker) (lit "corrected_text_result")));
      cbn|]|];
    rewrite ?Hp, ?Hs; cbn; rewrite Hguard;
    eexists _, _; repeat split.
Qed.

Lemma empty_correction_explains_the_placeholder_witness :
  current_worker_runnable (win awaiting_correction) = Some 0%nat
  /\ exists d self' worker,
       review all_libs (Accept (refined_text_edit d))
         (handle_worker_finished
            (handle_worker_progress (lit "ocr_correct") 100
               (handle_worker_result (lit "corrected_text_result") []
                  (win awaiting_correction)))) = Some self'
       /\ threadpool self' = threadpool (win awaiting_correction) ++ [worker]
       /\ current_worker_runnable self' = Some 1%nat
       /\ text_input worker = Some (lit "LLM 정제 결과가 없습니다.").
Proof.
  split; [vm_compute; reflexivity|].
  destruct (empty_correction_explains_the_placeholder all_libs
              (win awaiting_correction) (lit "doc.png") (lit "ocr_correct"))
    as (d & self' & worker & _ & _ & _ & Hreview & Hpool & Hslot & _ & Htext).
  - vm_compute. reflexivity.
  - vm_compute. reflexivity.
  - vm_compute. reflexivity.
  - exists d, self', worker. repeat split; assumption.
Defined.

(** The same in an execution: the model answers with blanks only, the
    worker emits the empty corrected text, and the text accepted unedited
    at the review is the placeholder, which a second worker is started to
    explain. *)
Example empty_correction_scenario :
  run all_libs blank_world never_set demo_worker
  = ocr_signals (lit "ocr_correct") (lit "Hello wrold") [] ++ [finished]
  /\ (sys ← steps all_libs (fun _ => blank_world) awaiting_correction
               [ deliver 0 (result (lit "corrected_text_result") []);
                 deliver 0 (progress (lit "ocr_correct") 100);
                 deliver 0 finished;
                 user_review (Accept (lit "LLM 정제 결과가 없습니다.")) ];
      Some (text_input <$> threadpool (win sys),
            current_worker_runnable (win sys)))
     = Some ([None; Some (lit "LLM 정제 결과가 없습니다.")], Some 1%nat).
Proof. split; vm_compute; reflexivity. Qed.

(** X17: the explanation.  An [explanation_result] opens the explanation
    dialog on its text, or on a placeholder when the text is empty, and
    changes nothing else; when the dialog is closed the window is fully
    reset, with the status that the explanation is done, and neither the
    pool nor the slot is touched. *)
Theorem explanation_closes_to_idle data self :
  let shown := handle_worker_result (lit "explanation_result") data self in
  shown
  = open_dialog (explanation_dialog (if truthy data then data
                                     else lit "해설 결과가 없습니다.")) self
  /\ exists idle,
       close_dialog shown = Some idle
       /\ status_label idle = lit "문서 해설 완료."
       /\ current_image_path idle = None
       /\ raw_ocr_text idle = []
       /\ current_corrected_text idle = []
       /\ final_accepted_text_for_explanation idle = []
       /\ progress_bar idle = 0%Z
       /\ analyze_button idle = false
       /\ select_image_button idle = true
       /\ threadpool idle = threadpool self
       /\ current_worker_runnable idle = current_worker_runnable self
       /\ stop_events idle = stop_events self
       /\ open_dialogs idle = open_dialogs self.
Proof.
  intros shown. subst shown. unfold handle_worker_result.
  change (str_eqb (lit "explanation_result") (lit "ocr_result")) with false.
  change (str_eqb (lit "explanation_result") (lit "corrected_text_result")) with false.
  rewrite str_eqb_refl. cbv iota. unfold show_explanation_dialog.
  split; [reflexivity|]. attributes self. eexists. split; [reflexivity|].
  repeat split.
Qed.

(** ** Every state the application can reach *)

(** All the methods a step runs, unfolded down to assignments. *)
Ltac methods :=
  unfold review, close_dialog, show_comparison_dialog_result,
    run_ocr_correction_task, run_explanation_task, _start_background_worker,
    handle_worker_error, handle_worker_error_rest, handle_worker_result,
    handle_worker_finished, handle_worker_progress, show_comparison_dialog,
    show_explanation_dialog, load_image_and_prepare_analysis,
    cancel_or_reset_all_processes, cancel_current_worker_if_running,
    reset_ui_after_task, exec, on_redo, on_accept, reject, get_accepted_text
    in *.

Lemma truthy_opt_path (image : option str) :
  negb (truthy_opt image) = false -> exists p, image = Some p /\ truthy p = true.
Proof.
  destruct image as [p|]; cbn; [|discriminate].
  destruct (truthy p) eqn:Hp; [|discriminate]. intros _. by exists p.
Qed.

(** The change of one step, read off the attributes of the two states. *)
Ltac change_of_step :=
  first
    [ by apply slot_kept
    | by apply slot_released
    | by eapply slot_cancelled
    | eapply slot_taken; cbn; try reflexivity;
      [ by repeat split
      | first
          [ left; split; [reflexivity|]; split; [|reflexivity];
            by apply truthy_opt_path
          | right; split; [reflexivity|]; split; [reflexivity|];
            eexists; split; [reflexivity|];
            match goal with
            | H : _ && _ = true |- _ => by apply andb_true_iff in H as [_ H]
            end ] ] ].

(** The cases of a step: each method it runs reduced to assignments,
    under the conditions of the branch taken; [finish] proves the goal
    there. *)
Ltac each_step self finish :=
  let go := (methods; repeat case_match; attributes self; simplify_eq/=; finish) in
  match goal with
  | |- step _ _ _ ?a = Some _ -> _ =>
    destruct a as [file_path| | |w sig|h|]; cbn [step win observed slot]
  end;
  [ case_match; [|done]; intros [= <-]; cbn [win]; go
  | case_match; [|done]; intros [= <-]; cbn [win]; go
  | case_match; [|done]; intros [= <-]; cbn [win]; go
  | case_match; [|done];
    match goal with
    | |- context [slot ?sg _] => destruct sg as [|msg|kind data|T p]
    end; cbn;
    [ intros [= <-]; cbn [win]; go
    | methods;
      match goal with
      | |- context [splitlines_0 ?m] => destruct (splitlines_0 m); [|done]
      end;
      cbn; intros [= <-]; cbn [win]; go
    | intros [= <-]; cbn [win]; go
    | intros [= <-]; cbn [win]; go ]
  | match goal with
    | |- context [review ?g ?hd _] =>
      destruct (review g hd self) as [self1|] eqn:Hreview; [|done];
      intros [= <-]; cbn [win]; revert Hreview; unfold review;
      destruct (open_dialogs self) as [|[d| |] rest] eqn:Hopen; try done;
      destruct hd as [|editedText|]; cbn [exec on_redo on_accept reject];
      intros [= <-]; methods; cbn [Z.eqb Pos.eqb]; go
    end
  | destruct (close_dialog self) as [self1|] eqn:Hclose; [|done];
    intros [= <-]; cbn [win]; unfold close_dialog in Hclose;
    destruct (open_dialogs self) as [|[d| |icon title text []] rest] eqn:Hopen;
    try discriminate; injection Hclose as <-; go ].

Lemma step_slot_change G world sys a sys' :
  step G world sys a = Some sys' -> slot_change (win sys) (win sys').
Proof.
  destruct sys as [self log]. cbn [win]. each_step self ltac:(change_of_step).
Qed.

Lemma step_same_engines G world sys a sys' :
  step G world sys a = Some sys' -> same_engines (win sys) (win sys').
Proof.
  destruct sys as [self log]. cbn [win]. each_step self ltac:(by repeat split).
Qed.

Lemma steps_invariant G world (P : MainWindow -> Prop) :
  (forall sys a sys', P (win sys) -> step G world sys a = Some sys' -> P (win sys')) ->
  forall actions sys sys',
    P (win sys) -> steps G world sys actions = Some sys' -> P (win sys').
Proof.
  intros Hstep actions.
  induction actions as [|a rest IH]; intros sys sys' H Hsteps; cbn in Hsteps.
  - by injection Hsteps as <-.
  - destruct (step G world sys a) as [sys1|] eqn:Ha; [|done].
    eapply IH; [|exact Hsteps]. by eapply Hstep.
Qed.

Lemma slot_change_tokens self self' :
  tokens self -> slot_change self self' -> tokens self'.
Proof.
  intros (Hlen & Hown & Hslot)
    [Hp Hs He Hev|worker Hfree Hp Hs He Hev Hw _ _|w ev Hs0 He0 Hp Hs He Hev|Hp Hs He Hev];
    unfold tokens; rewrite Hp, Hs, He, Hev.
  - exact (conj Hlen (conj Hown Hslot)).
  - rewrite !length_app. cbn. split; [lia|]. split.
    + intros i worker' Hi.
      destruct (decide (i < length (threadpool self))%nat) as [Hlt|Hge].
      * rewrite lookup_app_l in Hi by done. by apply Hown.
      * rewrite lookup_app_r in Hi by lia.
        destruct (i - length (threadpool self))%nat as [|k] eqn:Hk; [|done].
        cbn in Hi. injection Hi as <-. lia.
    + split; [lia|]. split; [lia|]. rewrite <- Hlen. by apply list_lookup_middle.
  - rewrite length_insert. by repeat split.
  - by repeat split.
Qed.

Lemma steps_tokens G W world actions sys :
  steps G world (initial G W) actions = Some sys -> tokens (win sys).
Proof.
  apply (steps_invariant G world tokens).
  - intros sys0 a sys1 H Hstep. eapply slot_change_tokens; [exact H|].
    by eapply step_slot_change.
  - by repeat split.
Qed.

(** X18: in every state the application can reach there are as many stop
    events as workers handed to the pool, the worker at position [i] polls
    the event at position [i], a taken slot holds the worker started last
    together with that worker's event, which is not set, and a free slot
    has no event. *)
Theorem each_worker_has_its_own_stop_event G W world actions sys :
  steps G world (initial G W) actions = Some sys ->
  length (stop_events (win sys)) = length (threadpool (win sys))
  /\ (forall i worker,
        threadpool (win sys) !! i = Some worker -> stop_event worker = i)
  /\ (forall w,
        current_worker_runnable (win sys) = Some w ->
        stop_current_worker_event (win sys) = Some w
        /\ S w = length (threadpool (win sys))
        /\ stop_events (win sys) !! w = Some false)
  /\ (current_worker_runnable (win sys) = None ->
      stop_current_worker_event (win sys) = None).
Proof.
  intros Hsteps. destruct (steps_tokens _ _ _ _ _ Hsteps) as (Hlen & Hown & Hslot).
  split; [exact Hlen|]. split; [exact Hown|].
  destruct (current_worker_runnable (win sys)) as [w|],
    (stop_current_worker_event (win sys)) as [ev|]; try done.
  destruct Hslot as (-> & Hlast & Hunset). split; [|done].
  by intros w' [= <-].
Qed.

Lemma each_worker_has_its_own_stop_event_witness :
  stop_current_worker_event (win restarted_system) = Some 1%nat
  /\ 2%nat = length (threadpool (win restarted_system))
  /\ stop_events (win restarted_system) !! 1%nat = Some false.
Proof.
  assert (Hsteps : steps all_libs (fun _ => demo_world)
                     (initial all_libs demo_world) cancel_then_restart
                   = Some restarted_system)
    by (vm_compute; reflexivity).
  destruct (each_worker_has_its_own_stop_event _ _ _ _ _ Hsteps)
    as (_ & _ & Hslot & _).
  apply Hslot. vm_compute. reflexivity.
Defined.

(** X19: every worker the window has handed to the pool, in any state the
    application can reach, carries the model name and the engines loaded
    at start-up, and either the task type [ocr_correct] with a non-empty
    image path and no text, or the task type [explain] with no image and
    a text that is not blank. *)
Theorem workers_get_the_engines_and_an_input G W world actions sys worker :
  steps G world (initial G W) actions = Some sys ->
  worker ∈ threadpool (win sys) ->
  staffed_by (MainWindow_init G W) worker /\ payload_ok worker.
Proof.
  intros Hsteps.
  enough (Hinv : same_engines (MainWindow_init G W) (win sys)
                 /\ forall worker, worker ∈ threadpool (win sys) ->
                      staffed_by (MainWindow_init G W) worker /\ payload_ok worker)
    by apply Hinv.
  revert Hsteps.
  apply (steps_invariant G world
           (fun self => same_engines (MainWindow_init G W) self
                        /\ forall worker, worker ∈ threadpool self ->
                             staffed_by (MainWindow_init G W) worker
                             /\ payload_ok worker)).
  - intros sys0 a sys1 [(Hn & Hr & Hm) Hpool] Hstep.
    destruct (step_same_engines _ _ _ _ _ Hstep) as (Hn' & Hr' & Hm').
    split; [by repeat split; congruence|].
    destruct (step_slot_change _ _ _ _ _ Hstep)
      as [Hp _ _ _|started _ Hp _ _ _ _ (Hsn & Hsr & Hsm) Hpayload|? ? _ _ Hp _ _ _|Hp _ _ _];
      rewrite Hp; try done.
    intros worker' [Hin|Hin]%elem_of_app; [by apply Hpool|].
    apply list_elem_of_singleton in Hin as ->.
    split; [|done]. repeat split; congruence.
  - split; [by repeat split|]. cbn. intros worker' Hin. by apply elem_of_nil in Hin.
Qed.

Lemma workers_get_the_engines_and_an_input_witness :
  payload_ok
    (mkWorker (lit "ocr_correct") (Some (lit "doc.png")) None
       (lit "Meta-Llama-3-8B-Instruct.Q4_0.gguf") 1 (Some 0%nat) (Some 0%nat)).
Proof.
  apply (workers_get_the_engines_and_an_input all_libs demo_world
           (fun _ => demo_world) cancel_then_restart restarted_system).
  - vm_compute. reflexivity.
  - apply list_elem_of_In. vm_compute. right. left. reflexivity.
Defined.

Lemma slot_change_set_stays self self' ev :
  slot_change self self' ->
  stop_events self !! ev = Some true -> stop_events self' !! ev = Some true.
Proof.
  intros [_ _ _ Hev|worker _ _ _ _ Hev _ _ _|w ev0 _ _ _ _ _ Hev|_ _ _ Hev] Hset;
    rewrite Hev; try done.
  - rewrite lookup_app_l; [done|]. by eapply lookup_lt_Some.
  - destruct (decide (ev0 = ev)) as [->|Hne].
    + apply list_lookup_insert_eq. by eapply lookup_lt_Some.
    + by rewrite list_lookup_insert_ne.
Qed.

(** X20: a stop event that is set stays set, whatever the window does
    next: no step clears or replaces the event of an earlier worker, so a
    cancelled worker sees the cancellation at every later check. *)
Theorem stop_event_stays_set G world actions sys sys' ev :
  steps G world sys actions = Some sys' ->
  stop_events (win sys) !! ev = Some true ->
  stop_events (win sys') !! ev = Some true.
Proof.
  intros Hsteps Hset. revert Hset Hsteps.
  apply (steps_invariant G world (fun self => stop_events self !! ev = Some true)).
  intros sys0 a sys1 H Hstep. eapply slot_change_set_stays; [|exact H].
  by eapply step_slot_change.
Qed.

Lemma stop_event_stays_set_witness :
  exists sys',
    steps all_libs (fun _ => demo_world)
      (mkSystem (cancel_or_reset_all_processes busy_window) [])
      [ select_image (lit "doc.png"); click_analyze ] = Some sys'
    /\ stop_events (win sys') !! 0%nat = Some true.
Proof.
  destruct (steps all_libs (fun _ => demo_world)
              (mkSystem (cancel_or_reset_all_processes busy_window) [])
              [ select_image (lit "doc.png"); click_analyze ])
    as [sys'|] eqn:Hsteps; [|vm_compute in Hsteps; discriminate].
  exists sys'. split; [reflexivity|].
  apply (stop_event_stays_set _ _ _ _ _ 0%nat Hsteps).
  vm_compute. reflexivity.
Defined.

Lemma truthy_opt_true (image : option str) :
  truthy_opt image = true -> exists p, image = Some p /\ truthy p = true.
Proof. destruct image as [p|]; cbn; [|discriminate]. intros Hp. by exists p. Qed.

(** The buttons after a step, from the buttons before it. *)
Ltac buttons_after_step :=
  unfold buttons_ok in *; cbn in *;
  match goal with
  | H : _ /\ (_ -> _) |- _ =>
    let Hc := fresh "Hc" in
    let Ha := fresh "Ha" in
    destruct H as [Hc Ha]; split; [done|]; intros ?;
    first
      [ done
      | by apply Ha
      | by apply truthy_opt_true
      | eexists; split; [reflexivity|];
        match goal with
        | H' : _ && _ = true |- _ => by apply andb_true_iff in H' as [_ H']
        end ]
  end.

Lemma step_buttons G world sys a sys' :
  buttons_ok (win sys) -> step G world sys a = Some sys' -> buttons_ok (win sys').
Proof.
  destruct sys as [self log]. cbn [win]. intros H.
  each_step self ltac:(buttons_after_step).
Qed.

(** X21: in every state the application can reach the cancel button is
    enabled, and the analysis button is enabled only while a non-empty
    image path is selected. *)
Theorem analyze_enabled_only_with_an_image G W world actions sys :
  steps G world (initial G W) actions = Some sys ->
  cancel_task_button (win sys) = true
  /\ (analyze_button (win sys) = true ->
      exists p, current_image_path (win sys) = Some p /\ truthy p = true).
Proof.
  apply (steps_invariant G world buttons_ok).
  - apply step_buttons.
  - split; [done|]. cbn. discriminate.
Qed.

Lemma analyze_enabled_only_with_an_image_witness :
  exists p,
    current_image_path
      (load_image_and_prepare_analysis (lit "doc.png")
         (MainWindow_init all_libs demo_world)) = Some p
    /\ truthy p = true.
Proof.
  apply (analyze_enabled_only_with_an_image all_libs demo_world
           (fun _ => demo_world) [select_image (lit "doc.png")]
           (mkSystem (load_image_and_prepare_analysis (lit "doc.png")
                        (MainWindow_init all_libs demo_world)) [])).
  - vm_compute. reflexivity.
  - vm_compute. reflexivity.
Defined.

(** The dialogs after a step, from the dialogs before it. *)
Ltac boxes_after_step :=
  unfold library_box_free in *; cbn in *;
  try match goal with
      | H : _ && false = true |- _ => rewrite andb_false_r in H; discriminate H
      end;
  try match goal with
      | H : Forall _ (_ :: _) |- _ => inversion_clear H
      end;
  first [ done | constructor; [cbn; tauto|done] ].

Lemma step_library_box_free world sys a sys' :
  library_box_free (win sys) ->
  step all_libs world sys a = Some sys' ->
  library_box_free (win sys').
Proof.
  destruct sys as [self log]. cbn [win]. intros H.
  each_step self ltac:(boxes_after_step).
Qed.

(** X22: when the start-up check of the main block lets the application
    start, all three libraries were imported, and the window never shows
    one of the message boxes of [run_ocr_correction_task] and
    [run_explanation_task] about a missing library. *)
Theorem no_library_box_after_startup G W world sys0 actions sys :
  main G W = shown sys0 ->
  steps G world sys0 actions = Some sys ->
  (easyocr G = true /\ GPT4All G = true /\ cv2 G = true)
  /\ forall icon title text,
       message_box icon title text in_run_task ∉ open_dialogs (win sys).
Proof.
  intros Hmain Hsteps. destruct G as [[] [] []]; try discriminate Hmain.
  injection Hmain as <-. split; [done|].
  assert (Hfree : library_box_free (win sys)).
  { revert Hsteps. apply (steps_invariant _ world library_box_free).
    - apply step_library_box_free.
    - apply Forall_nil_2. }
  intros icon title text Hin.
  unfold library_box_free in Hfree. rewrite Forall_forall in Hfree.
  apply list_elem_of_In in Hin. by apply (Hfree _ Hin).
Qed.

Lemma no_library_box_after_startup_witness :
  cv2 all_libs = true
  /\ message_box Critical (lit "OpenCV 오류")
       (lit "OpenCV(cv2) 라이브러리가 없어 이미지 분석을 진행할 수 없습니다.") in_run_task
     ∉ open_dialogs (win review_system).
Proof.
  destruct (no_library_box_after_startup all_libs typo_world (fun _ => typo_world)
              (initial all_libs typo_world) to_the_review review_system)
    as [(_ & _ & Hcv2) Hbox].
  - reflexivity.
  - vm_compute. reflexivity.
  - split; [exact Hcv2|]. apply Hbox.
Defined.
